(** * lifcura-uploader-server: the request gateway of [src/index.js]

    A shallow embedding of the Express application of [src/index.js]:
    the origin allow-list, the file intake, the name generator and the
    upload and delete handlers, with the remote storage provider, the
    clock and the UUID source as an interface the handlers run against. *)

From Stdlib Require Import List ZArith NArith Bool String Ascii Lia.
From Stdlib Require Import DecimalZ DecimalPos.
Import ListNotations.

Set Implicit Arguments.
Set Warnings "-register-all".

(** ** JavaScript data *)

Module Js.

(** A JavaScript string is a sequence of UTF-16 code units. *)
Definition code_unit := N.
Definition jsstring := list code_unit.

(** String literals of the source (all ASCII). *)
Definition lit (s : string) : jsstring :=
  map N_of_ascii (list_ascii_of_string s).

Fixpoint str_eqb (a b : jsstring) : bool :=
  match a, b with
  | [], [] => true
  | x :: a', y :: b' => N.eqb x y && str_eqb a' b'
  | _, _ => false
  end.

(** [s.startsWith(p)] *)
Fixpoint startsWith (s p : jsstring) : bool :=
  match p, s with
  | [], _ => true
  | y :: p', x :: s' => N.eqb x y && startsWith s' p'
  | _ :: _, [] => false
  end.

(** [xs.includes(s)] on an array of strings. *)
Definition includes (xs : list jsstring) (s : jsstring) : bool :=
  existsb (str_eqb s) xs.

(** [s.split(sep)] for a one-unit separator: never returns the empty array. *)
Fixpoint split (sep : code_unit) (s : jsstring) : list jsstring :=
  match s with
  | [] => [[]]
  | c :: s' =>
      if N.eqb c sep then [] :: split sep s'
      else match split sep s' with
           | [] => [[c]]
           | w :: ws => (c :: w) :: ws
           end
  end.

(** White space and line terminators removed by [String.prototype.trim]. *)
Definition is_space (c : code_unit) : bool :=
  ((9 <=? c) && (c <=? 13) || (c =? 32) || (c =? 160) || (c =? 5760)
   || ((8192 <=? c) && (c <=? 8202)) || (c =? 8232) || (c =? 8233)
   || (c =? 8239) || (c =? 8287) || (c =? 12288) || (c =? 65279))%N.

Fixpoint trimStart (s : jsstring) : jsstring :=
  match s with
  | c :: s' => if is_space c then trimStart s' else s
  | [] => []
  end.

Definition trim (s : jsstring) : jsstring :=
  rev (trimStart (rev (trimStart s))).

(** [xs.join(sep)] *)
Fixpoint join (sep : jsstring) (xs : list jsstring) : jsstring :=
  match xs with
  | [] => []
  | [x] => x
  | x :: xs' => x ++ sep ++ join sep xs'
  end.

(** Numbers are IEEE-754 doubles: sign, mantissa and binary exponent. *)
Inductive number :=
| NaN
| Infinity (neg : bool)
| Zero (neg : bool)
| Finite (neg : bool) (m : positive) (e : Z).

(** Values that reach the handlers: JSON data and [undefined]. An object
    is the list of its own enumerable properties. *)
Inductive value :=
| Undefined
| Null
| Bool (b : bool)
| Num (n : number)
| Str (s : jsstring)
| Arr (xs : list value)
| Obj (fields : list (jsstring * value)).

(** ToBoolean: what [!v] and [v || w] test. *)
Definition to_boolean (v : value) : bool :=
  match v with
  | Undefined | Null => false
  | Bool b => b
  | Num NaN | Num (Zero _) => false
  | Num _ => true
  | Str [] => false
  | Str _ => true
  | Arr _ | Obj _ => true
  end.

(** [a || b] *)
Definition or_else (a b : value) : value :=
  if to_boolean a then a else b.

Fixpoint lookup (k : jsstring) (fs : list (jsstring * value)) : value :=
  match fs with
  | [] => Undefined
  | (k', v) :: fs' => if str_eqb k k' then v else lookup k fs'
  end.

(** [v.k] for a property name [k] that no built-in prototype defines
    ([url], [fileId], [message]): [None] is the TypeError raised on
    [undefined] and [null]. *)
Definition get (v : value) (k : jsstring) : option value :=
  match v with
  | Undefined | Null => None
  | Obj fs => Some (lookup k fs)
  | _ => Some Undefined
  end.

(** [v?.k] *)
Definition get_opt (v : value) (k : jsstring) : value :=
  match get v k with
  | Some x => x
  | None => Undefined
  end.

(** Number::toString of an integer below 10^21 in magnitude: plain
    decimal digits, with a leading minus sign when negative. *)
Definition digit_unit (d : N) : code_unit := (48 + d)%N.

Fixpoint uint_units (d : Decimal.uint) : jsstring :=
  match d with
  | Decimal.Nil => []
  | Decimal.D0 d' => digit_unit 0 :: uint_units d'
  | Decimal.D1 d' => digit_unit 1 :: uint_units d'
  | Decimal.D2 d' => digit_unit 2 :: uint_units d'
  | Decimal.D3 d' => digit_unit 3 :: uint_units d'
  | Decimal.D4 d' => digit_unit 4 :: uint_units d'
  | Decimal.D5 d' => digit_unit 5 :: uint_units d'
  | Decimal.D6 d' => digit_unit 6 :: uint_units d'
  | Decimal.D7 d' => digit_unit 7 :: uint_units d'
  | Decimal.D8 d' => digit_unit 8 :: uint_units d'
  | Decimal.D9 d' => digit_unit 9 :: uint_units d'
  end.

Definition integer_to_string (z : Z) : jsstring :=
  match Z.to_int z with
  | Decimal.Pos d => uint_units d
  | Decimal.Neg d => 45%N :: uint_units d
  end.

(** Regular expressions of the form [/[...]/g]: one character class. *)
Inductive class_atom :=
| CRange (lo hi : code_unit)
| CChar (c : code_unit).

Record char_class := { negated : bool; atoms : list class_atom }.

Definition atom_matches (c : code_unit) (a : class_atom) : bool :=
  match a with
  | CRange lo hi => ((lo <=? c) && (c <=? hi))%N
  | CChar x => (x =? c)%N
  end.

Definition class_matches (cls : char_class) (c : code_unit) : bool :=
  xorb (negated cls) (existsb (atom_matches c) (atoms cls)).

(** [s.replace(/[...]/g, rep)] without the [u] flag: every code unit the
    class matches is replaced, the others are kept. *)
Definition replace_all (cls : char_class) (rep : jsstring) (s : jsstring)
  : jsstring :=
  flat_map (fun c => if class_matches cls c then rep else [c]) s.

Definition unit_of (s : string) : code_unit :=
  match s with
  | String a _ => N_of_ascii a
  | EmptyString => 0%N
  end.

End Js.
Import Js.

(** ** Collaborators: clock, UUID source and Storage Gateway *)

(** The options object passed to [imagekit.upload] (lines 83-90). *)
Record UploadOptions := {
  file : list Byte.byte;
  fileName : jsstring;
  folder : jsstring;
  useUniqueFileName : bool;
  isPrivateFile : bool;
  tags : list jsstring
}.

(** How an awaited promise settles. *)
Inductive Settled :=
| Fulfilled (v : value)
| Rejected (e : value).

(** What the process runs against. [World] is the state of everything
    outside the process; each call may read and change it. *)
Class Platform := {
  World : Type;
  Date_now : World -> Z * World;
  uuidv4 : World -> jsstring * World;
  imagekit_upload : UploadOptions -> World -> Settled * World;
  imagekit_deleteFile : value -> World -> Settled * World
}.

(** What a handler does to the outside, in the order it does it. *)
Inductive Effect :=
| EvDateNow
| EvUuid
| EvUpload (o : UploadOptions)
| EvDelete (fileId : value)
| EvConsoleError (label : jsstring) (e : value).

Definition is_gateway_call (ev : Effect) : bool :=
  match ev with
  | EvUpload _ | EvDelete _ => true
  | _ => false
  end.

(** ** Computations: state, a trace of effects, and exceptions *)

Inductive Completion (A : Type) :=
| Normal (a : A)
| Throw (e : value).
Arguments Normal {A} a.
Arguments Throw {A} e.

Section Monad.
Context {P : Platform}.

Definition State : Type := World * list Effect.

Definition M (A : Type) : Type := State -> Completion A * State.

Definition ret {A} (a : A) : M A := fun s => (Normal a, s).

Definition bind {A B} (m : M A) (k : A -> M B) : M B :=
  fun s =>
    match m s with
    | (Normal a, s') => k a s'
    | (Throw e, s') => (Throw e, s')
    end.

Definition throw {A} (e : value) : M A := fun s => (Throw e, s).

(** [try { m } catch (e) { h e }] *)
Definition try_catch {A} (m : M A) (h : value -> M A) : M A :=
  fun s =>
    match m s with
    | (Normal a, s') => (Normal a, s')
    | (Throw e, s') => h e s'
    end.

(** An external call: run it on the world and record it. *)
Definition perform {A} (ev : Effect) (f : World -> A * World) : M A :=
  fun s =>
    let (a, w') := f (fst s) in
    (Normal a, (w', snd s ++ [ev])).

(** [await p]: a rejection is thrown at the await. *)
Definition await (ev : Effect) (f : World -> Settled * World) : M value :=
  bind (perform ev f)
       (fun r => match r with
                 | Fulfilled v => ret v
                 | Rejected e => throw e
                 end).

(** A property read that raises a TypeError on [undefined] and [null]. *)
Definition TypeError : value :=
  Obj [(lit "name", Str (lit "TypeError"))].

Definition read (v : value) (k : jsstring) : M value :=
  match get v k with
  | Some x => ret x
  | None => throw TypeError
  end.

Definition console_error (label : jsstring) (e : value) : M unit :=
  perform (EvConsoleError label e) (fun w => (tt, w)).

End Monad.

Notation "x <- m ;; k" := (bind m (fun x => k))
  (at level 61, m at next level, right associativity).
Notation "m ;;; k" := (bind m (fun _ => k))
  (at level 61, right associativity).

(** ** Requests and responses *)

Inductive Method := GET | HEAD | POST | PUT | PATCH | DELETE | OPTIONS.

Definition Method_eqb (a b : Method) : bool :=
  match a, b with
  | GET, GET | HEAD, HEAD | POST, POST | PUT, PUT | PATCH, PATCH
  | DELETE, DELETE | OPTIONS, OPTIONS => true
  | _, _ => false
  end.

(** A file part of a multipart body, as multer's memory storage exposes it. *)
Record MulterFile := {
  fieldname : jsstring;
  originalname : jsstring;
  mimetype : jsstring;
  buffer : list Byte.byte
}.

(** What the request carries: nothing the parsers read, a JSON text that
    parses to [v], a JSON body the parser rejects with a status, or a
    multipart body with its file parts in order. *)
Inductive Payload :=
| NoPayload
| JsonBody (v : value)
| JsonRejected (status : Z)
| Multipart (parts : list MulterFile).

Module Req.
Record t := {
  method : Method;
  path : jsstring;
  origin : option jsstring;      (* req.headers.origin *)
  payload : Payload;
  body : value;                  (* req.body *)
  file : option MulterFile       (* req.file *)
}.
Definition with_body (v : value) (r : t) : t :=
  {| method := method r; path := path r; origin := origin r;
     payload := payload r; body := v; file := file r |}.
Definition with_file (f : option MulterFile) (r : t) : t :=
  {| method := method r; path := path r; origin := origin r;
     payload := payload r; body := body r; file := f |}.
(** A request as it arrives, before any middleware ran. *)
Definition incoming (m : Method) (p : jsstring) (o : option jsstring)
  (pl : Payload) : t :=
  {| method := m; path := p; origin := o; payload := pl;
     body := Undefined; file := None |}.
End Req.

Inductive Content :=
| NotSent
| Json (v : value)
| EmptyBody
| ErrorPage.

Module Res.
Record t := {
  statusCode : Z;
  headers : list (jsstring * jsstring);
  content : Content
}.
(** A fresh response object. *)
Definition fresh : t := {| statusCode := 200; headers := []; content := NotSent |}.
(** [res.status(code)] *)
Definition status (code : Z) (r : t) : t :=
  {| statusCode := code; headers := headers r; content := content r |}.
(** [res.json(v)] *)
Definition json (v : value) (r : t) : t :=
  {| statusCode := statusCode r; headers := headers r; content := Json v |}.
(** [res.setHeader(k, v)] *)
Definition setHeader (k v : jsstring) (r : t) : t :=
  {| statusCode := statusCode r; headers := headers r ++ [(k, v)];
     content := content r |}.
(** [res.end()] *)
Definition end_ (r : t) : t :=
  {| statusCode := statusCode r; headers := headers r; content := EmptyBody |}.
Definition header (k : jsstring) (r : t) : option jsstring :=
  option_map snd (find (fun kv => str_eqb k (fst kv)) (headers r)).
End Res.

(** ** Configuration (lines 8-32) *)

Record Env := {
  env_PORT : option jsstring;
  env_ALLOW_ORIGIN : option jsstring;
  env_IMAGEKIT_PUBLIC_KEY : option jsstring;
  env_IMAGEKIT_PRIVATE_KEY : option jsstring;
  env_IMAGEKIT_URL_ENDPOINT : option jsstring;
  env_IMAGEKIT_FOLDER : option jsstring
}.

(** [process.env.X || d]: an unset or empty variable gives the default. *)
Definition env_or (x : option jsstring) (d : jsstring) : jsstring :=
  match x with
  | Some (c :: s) => c :: s
  | _ => d
  end.

Definition env_missing (x : option jsstring) : bool :=
  match x with
  | Some (_ :: _) => false
  | _ => true
  end.

Section Config.
Variable env : Env.

Definition PORT : jsstring := env_or (env_PORT env) (lit "4000").
Definition ALLOW_ORIGIN : jsstring :=
  env_or (env_ALLOW_ORIGIN env) (lit "http://localhost:3000").
Definition IMAGEKIT_FOLDER : jsstring :=
  env_or (env_IMAGEKIT_FOLDER env) (lit "/product-images").

(** Lines 16-19: the process exits at startup unless this holds. *)
Definition starts : bool :=
  negb (env_missing (env_IMAGEKIT_PUBLIC_KEY env)
        || env_missing (env_IMAGEKIT_PRIVATE_KEY env)
        || env_missing (env_IMAGEKIT_URL_ENDPOINT env)).

(** Lines 29-32. [filter(Boolean)] keeps the non-empty strings. *)
Definition allowedOrigins : list jsstring :=
  filter (fun o => to_boolean (Str o))
         (map trim (split (unit_of ",") (env_or (Some ALLOW_ORIGIN) []))).

End Config.

(** ** Express: middleware, routing and the default error handler *)

(** An error object handed to [next(err)]. [err_status] is its [status]
    (or [statusCode]) property when it has one. *)
Record Err := {
  err_name : jsstring;
  err_message : jsstring;
  err_code : option jsstring;
  err_status : option Z
}.

(** [new Error(msg)] *)
Definition Error (msg : jsstring) : Err :=
  {| err_name := lit "Error"; err_message := msg;
     err_code := None; err_status := None |}.

(** How a middleware or handler leaves a request. *)
Inductive Step :=
| Next (req : Req.t) (res : Res.t)       (* next() *)
| NextErr (e : Err) (res : Res.t)        (* next(err) *)
| End (res : Res.t)                      (* the response was sent *)
| Pending (e : value) (res : Res.t).     (* an async handler rejected: nothing is sent *)

(** What the client gets. *)
Inductive Outcome :=
| Responded (res : Res.t)
| NoResponse (e : value).

(** The default error handler (finalhandler): the error's status when it is
    a 4xx or 5xx, the response's own when that is one, otherwise 500. *)
Definition error_status (e : Err) (res : Res.t) : Z :=
  match err_status e with
  | Some s => if ((400 <=? s) && (s <? 600))%Z then s else 500%Z
  | None =>
      let s := Res.statusCode res in
      if ((400 <=? s) && (s <? 600))%Z then s else 500%Z
  end.

Definition default_error_handler (e : Err) (res : Res.t) : Res.t :=
  {| Res.statusCode := error_status e res; Res.headers := Res.headers res;
     Res.content := ErrorPage |}.

(** No layer answered: 404. *)
Definition not_found (res : Res.t) : Res.t :=
  {| Res.statusCode := 404; Res.headers := Res.headers res;
     Res.content := ErrorPage |}.

(** Route paths match case-insensitively and ignore one trailing slash. *)
Definition lower (c : code_unit) : code_unit :=
  if ((65 <=? c) && (c <=? 90))%N then (c + 32)%N else c.

Definition strip_slash (s : jsstring) : jsstring :=
  match rev s with
  | c :: r => if (c =? unit_of "/")%N then rev r else s
  | [] => []
  end.

Definition path_matches (pattern p : jsstring) : bool :=
  str_eqb (map lower (strip_slash p)) (map lower (strip_slash pattern)).

(** ** cors: the middleware configured by [corsOptions] *)

Record CorsOptions := {
  (** [origin(origin, callback)]: the arguments it calls back with, an
      error and the flag. *)
  cors_origin : option jsstring -> option Err * bool;
  methods : list jsstring;
  allowedHeaders : list jsstring;
  credentials : bool
}.

(** [!origin] for a header value: undefined or the empty string. *)
Definition no_origin (o : option jsstring) : bool :=
  match o with
  | Some (_ :: _) => false
  | _ => true
  end.

(** Access-Control-Allow-Origin reflects the request's origin when it has
    one; Vary: Origin is always set. *)
Definition configureOrigin (req : Req.t) (res : Res.t) : Res.t :=
  let res' :=
    match Req.origin req with
    | Some (c :: s) =>
        Res.setHeader (lit "Access-Control-Allow-Origin") (c :: s) res
    | _ => res
    end in
  Res.setHeader (lit "Vary") (lit "Origin") res'.

Definition configureCredentials (o : CorsOptions) (res : Res.t) : Res.t :=
  if credentials o
  then Res.setHeader (lit "Access-Control-Allow-Credentials") (lit "true") res
  else res.

Definition configureMethods (o : CorsOptions) (res : Res.t) : Res.t :=
  Res.setHeader (lit "Access-Control-Allow-Methods")
                (join (lit ",") (methods o)) res.

Definition configureAllowedHeaders (o : CorsOptions) (res : Res.t) : Res.t :=
  match join (lit ",") (allowedHeaders o) with
  | [] => res
  | h => Res.setHeader (lit "Access-Control-Allow-Headers") h res
  end.

Definition cors (o : CorsOptions) (req : Req.t) (res : Res.t) : Step :=
  match cors_origin o (Req.origin req) with
  | (Some e, _) => NextErr e res
  | (None, false) => Next req res
  | (None, true) =>
      if Method_eqb (Req.method req) OPTIONS then
        (* pre-flight: answered here with 204 and no body *)
        let r1 := configureOrigin req res in
        let r2 := configureCredentials o r1 in
        let r3 := configureMethods o r2 in
        let r4 := configureAllowedHeaders o r3 in
        End (Res.end_ (Res.setHeader (lit "Content-Length") (lit "0")
                                     (Res.status 204 r4)))
      else
        Next req (configureCredentials o (configureOrigin req res))
  end.

(** ** express.json() *)

Definition bad_request (st : Z) : Err :=
  {| err_name := lit "Error"; err_message := lit "request body rejected";
     err_code := None; err_status := Some st |}.

Definition express_json (req : Req.t) (res : Res.t) : Step :=
  let req0 := Req.with_body (or_else (Req.body req) (Obj [])) req in
  match Req.payload req with
  | JsonBody (Obj fs) => Next (Req.with_body (Obj fs) req) res
  | JsonBody (Arr xs) => Next (Req.with_body (Arr xs) req) res
  | JsonBody _ => NextErr (bad_request 400) res     (* strict mode *)
  | JsonRejected st => NextErr (bad_request st) res
  | NoPayload | Multipart _ => Next req0 res
  end.

(** ** multer: [upload.single(name)] with memory storage *)

Record MulterOptions := { limits_fileSize : N }.

Definition MulterError (code msg : jsstring) : Err :=
  {| err_name := lit "MulterError"; err_message := msg;
     err_code := Some code; err_status := None |}.

Definition size (f : MulterFile) : N := N.of_nat (List.length (buffer f)).

(** File parts are taken in order. A part under another field, or a
    second part under [name], is refused; a part whose size reaches the
    limit is cut there and the request fails, so a part is taken in only
    when it is smaller than the limit. *)
Fixpoint intake (o : MulterOptions) (name : jsstring) (filesLeft : nat)
  (parts : list MulterFile) (got : option MulterFile) {struct parts}
  : Err + option MulterFile :=
  match parts with
  | [] => inr got
  | p :: ps =>
      match filesLeft with
      | S n =>
          if negb (str_eqb (fieldname p) name)
          then inl (MulterError (lit "LIMIT_UNEXPECTED_FILE") (lit "Unexpected field"))
          else if (limits_fileSize o <=? size p)%N
          then inl (MulterError (lit "LIMIT_FILE_SIZE") (lit "File too large"))
          else intake o name n ps
                      (match got with Some g => Some g | None => Some p end)
      | O => inl (MulterError (lit "LIMIT_UNEXPECTED_FILE") (lit "Unexpected field"))
      end
  end.

Definition single (o : MulterOptions) (name : jsstring)
  (req : Req.t) (res : Res.t) : Step :=
  match Req.payload req with
  | Multipart parts =>
      match intake o name 1 parts None with
      | inl e => NextErr e res
      | inr f => Next (Req.with_file f req) res
      end
  | _ => Next req res
  end.

(** ** The application (lines 27-114) *)

Section App.
Context {P : Platform}.
Variable env : Env.

(** Lines 34-44. *)
Definition corsOptions : CorsOptions := {|
  cors_origin := fun origin =>
    if no_origin origin then (None, true)
    else if includes (allowedOrigins env)
                     (match origin with Some o => o | None => [] end)
    then (None, true)
    else (Some (Error (lit "Not allowed by CORS")), false);
  methods := [lit "GET"; lit "POST"; lit "DELETE"; lit "OPTIONS"];
  allowedHeaders := [lit "Content-Type"; lit "Authorization"];
  credentials := false
|}.

(** Lines 51-54. *)
Definition upload : MulterOptions :=
  {| limits_fileSize := 10 * 1024 * 1024 |}.

Definition error_body (v : value) : value := Obj [(lit "error", v)].

(** Line 79: [originalname.replace(/[^a-zA-Z0-9._-]/g, '_')] *)
Definition safeName (originalname : jsstring) : jsstring :=
  replace_all
    {| negated := true;
       atoms := [CRange (unit_of "a") (unit_of "z");
                 CRange (unit_of "A") (unit_of "Z");
                 CRange (unit_of "0") (unit_of "9");
                 CChar (unit_of "."); CChar (unit_of "_"); CChar (unit_of "-")] |}
    (lit "_") originalname.

(** Line 80: the template literal, given the clock reading and the UUID. *)
Definition storage_key (now : Z) (uuid : jsstring) (originalname : jsstring)
  : jsstring :=
  integer_to_string now ++ lit "-" ++ uuid ++ lit "-" ++ safeName originalname.

(** Lines 83-90: the options of the upload call. *)
Definition upload_options (buf : list Byte.byte) (key : jsstring)
  : UploadOptions :=
  {| file := buf;
     fileName := key;
     folder := IMAGEKIT_FOLDER env;
     useUniqueFileName := false;
     isPrivateFile := false;
     tags := [lit "lifcura"; lit "product"] |}.

(** The [catch] blocks of both handlers (lines 97-100 and 110-113). *)
Definition on_error (label : jsstring) (res : Res.t) (e : value) : M Res.t :=
  console_error label e ;;;
  message <- read e (lit "message") ;;
  ret (Res.json (error_body (or_else message (Str (lit "Server error"))))
                (Res.status 500 res)).

(** Lines 71-101: the handler of POST /upload. *)
Definition upload_handler (req : Req.t) (res : Res.t) : M Res.t :=
  try_catch
    (match Req.file req with
     | None =>
         ret (Res.json (error_body (Str (lit "No file provided")))
                       (Res.status 400 res))
     | Some f =>
         if negb (startsWith (mimetype f) (lit "image/")) then
           ret (Res.json (error_body (Str (lit "Only image uploads are allowed")))
                         (Res.status 400 res))
         else
           now <- perform EvDateNow Date_now ;;
           uuid <- perform EvUuid uuidv4 ;;
           let o := upload_options (buffer f)
                                   (storage_key now uuid (originalname f)) in
           result <- await (EvUpload o) (imagekit_upload o) ;;
           if negb (to_boolean (get_opt result (lit "url"))) then
             ret (Res.json (error_body (Str (lit "ImageKit upload failed")))
                           (Res.status 500 res))
           else
             url <- read result (lit "url") ;;
             fileId <- read result (lit "fileId") ;;
             ret (Res.json (Obj [(lit "url", url); (lit "fileId", fileId)]) res)
     end)
    (on_error (lit "Upload handler error:") res).

(** Lines 104-114: the handler of DELETE /image. *)
Definition delete_handler (req : Req.t) (res : Res.t) : M Res.t :=
  try_catch
    (fileId <- read (or_else (Req.body req) (Obj [])) (lit "fileId") ;;
     if negb (to_boolean fileId) then
       ret (Res.json (error_body (Str (lit "fileId is required")))
                     (Res.status 400 res))
     else
       await (EvDelete fileId) (imagekit_deleteFile fileId) ;;;
       ret (Res.json (Obj [(lit "ok", Bool true)]) res))
    (on_error (lit "Delete handler error:") res).

(** Lines 56-69. *)
Definition root_handler (req : Req.t) (res : Res.t) : Res.t :=
  Res.json
    (Obj [(lit "ok", Bool true);
          (lit "message", Str (lit "Image uploader server is running."));
          (lit "endpoints",
           Obj [(lit "health", Str (lit "/health"));
                (lit "upload",
                 Str (lit "POST /upload (multipart/form-data, field name: file)"))])])
    res.

Definition health_handler (req : Req.t) (res : Res.t) : Res.t :=
  Res.json (Obj [(lit "ok", Bool true)]) res.

(** *** Layers and dispatch *)

Definition Handler : Type := Req.t -> Res.t -> M Step.

(** A synchronous middleware. *)
Definition middleware (f : Req.t -> Res.t -> Step) : Handler :=
  fun req res => ret (f req res).

(** A synchronous route handler that sends its response. *)
Definition sync (h : Req.t -> Res.t -> Res.t) : Handler :=
  fun req res => ret (End (h req res)).

(** An [async] route handler: when its promise rejects nothing catches
    it, and no response is sent. *)
Definition async (h : Req.t -> Res.t -> M Res.t) : Handler :=
  fun req res s =>
    match h req res s with
    | (Normal r, s') => (Normal (End r), s')
    | (Throw e, s') => (Normal (Pending e res), s')
    end.

Inductive Matcher :=
| Use                                        (* app.use(fn) *)
| Route (m : Method) (pattern : jsstring)    (* app.METHOD(path, ...) *)
| RouteAll (m : Method).                     (* app.METHOD('*', ...) *)

Record Layer := { matcher : Matcher; stack : list Handler }.

(** A GET route also serves HEAD. *)
Definition method_matches (m : Method) (req : Req.t) : bool :=
  Method_eqb (Req.method req) m
  || (Method_eqb m GET && Method_eqb (Req.method req) HEAD).

Definition layer_matches (l : Layer) (req : Req.t) : bool :=
  match matcher l with
  | Use => true
  | Route m pattern => method_matches m req && path_matches pattern (Req.path req)
  | RouteAll m => method_matches m req
  end.

Fixpoint run_stack (hs : list Handler) (req : Req.t) (res : Res.t) : M Step :=
  match hs with
  | [] => ret (Next req res)
  | h :: hs' =>
      s <- h req res ;;
      match s with
      | Next req' res' => run_stack hs' req' res'
      | other => ret other
      end
  end.

Fixpoint dispatch (ls : list Layer) (req : Req.t) (res : Res.t) : M Outcome :=
  match ls with
  | [] => ret (Responded (not_found res))
  | l :: ls' =>
      if layer_matches l req then
        s <- run_stack (stack l) req res ;;
        match s with
        | Next req' res' => dispatch ls' req' res'
        | NextErr e res' => ret (Responded (default_error_handler e res'))
        | End res' => ret (Responded res')
        | Pending e _ => ret (NoResponse e)
        end
      else dispatch ls' req res
  end.

(** The layers in registration order (lines 46-48, 56, 67, 71, 104). *)
Definition layers : list Layer :=
  [ {| matcher := Use; stack := [middleware (cors corsOptions)] |};
    {| matcher := RouteAll OPTIONS; stack := [middleware (cors corsOptions)] |};
    {| matcher := Use; stack := [middleware express_json] |};
    {| matcher := Route GET (lit "/"); stack := [sync root_handler] |};
    {| matcher := Route GET (lit "/health"); stack := [sync health_handler] |};
    {| matcher := Route POST (lit "/upload");
       stack := [middleware (single upload (lit "file")); async upload_handler] |};
    {| matcher := Route DELETE (lit "/image"); stack := [async delete_handler] |} ].

Definition app (req : Req.t) : M Outcome := dispatch layers req Res.fresh.

End App.

(** The effects a run performed, and those that reached the Storage Gateway. *)
Definition gateway_calls (tr : list Effect) : list Effect :=
  filter is_gateway_call tr.

(** ** The specification's vocabulary *)

(** The character class [[A-Za-z0-9._-]], by code unit. *)
Definition name_char (c : code_unit) : Prop :=
  (65 <= c <= 90 \/ 97 <= c <= 122 \/ 48 <= c <= 57
   \/ c = 46 \/ c = 95 \/ c = 45)%N.

Definition is_digit (c : code_unit) : Prop := (48 <= c <= 57)%N.

(** The number a string of decimal digits denotes. *)
Definition decimal_value (s : jsstring) : N :=
  fold_left (fun acc c => (acc * 10 + (c - 48))%N) s 0%N.

(** The textual form of a version-4 UUID: 8-4-4-4-12 lower-case
    hexadecimal digits, version digit 4, variant digit 8, 9, a or b. *)
Definition is_hex (c : code_unit) : bool :=
  ((48 <=? c) && (c <=? 57) || (97 <=? c) && (c <=? 102))%N.

Definition is_uuid_v4 (u : jsstring) : bool :=
  (List.length u =? 36)%nat
  && forallb (fun ic =>
                let '(i, c) := ic in
                if ((i =? 8) || (i =? 13) || (i =? 18) || (i =? 23))%nat
                then (c =? 45)%N
                else if (i =? 14)%nat then (c =? 52)%N
                else if (i =? 19)%nat
                then ((c =? 56) || (c =? 57) || (c =? 97) || (c =? 98))%N
                else is_hex c)
             (combine (seq 0 36) u).

(** The falsy values a JSON body can give [fileId], and the absent one. *)
Inductive falsy : value -> Prop :=
| falsy_absent : falsy Undefined
| falsy_null : falsy Null
| falsy_empty : falsy (Str [])
| falsy_zero : forall neg, falsy (Num (Zero neg))
| falsy_nan : falsy (Num NaN)
| falsy_false : falsy (Bool false).

(** [req.body.fileId], as the handler reads it. *)
Definition fileId_of (body : value) : value :=
  get_opt (or_else body (Obj [])) (lit "fileId").

Definition is_nullish (v : value) : bool :=
  match v with
  | Undefined | Null => true
  | _ => false
  end.

(** The methods a pre-flight response advertises. *)
Definition advertised_methods (res : Res.t) : option (list jsstring) :=
  option_map (split (unit_of ","))
             (Res.header (lit "Access-Control-Allow-Methods") res).

Definition advertised_headers (res : Res.t) : option (list jsstring) :=
  option_map (split (unit_of ","))
             (Res.header (lit "Access-Control-Allow-Headers") res).

(** Whether the origin callback lets the request through. *)
Definition admitted (env : Env) (o : option jsstring) : bool :=
  match cors_origin (corsOptions env) o with
  | (None, true) => true
  | _ => false
  end.

(** The response to a request the allow-list turns away. *)
Definition denial : Res.t :=
  default_error_handler (Error (lit "Not allowed by CORS")) Res.fresh.

(** The answer to a pre-flight request that is let through. *)
Definition preflight (env : Env) (req : Req.t) : Res.t :=
  Res.end_
    (Res.setHeader (lit "Content-Length") (lit "0")
       (Res.status 204
          (configureAllowedHeaders (corsOptions env)
             (configureMethods (corsOptions env)
                (configureOrigin req Res.fresh))))).

Definition MiB : N := 1024 * 1024.

(** A string that neither begins nor ends with white space. *)
Definition trimmed (s : jsstring) : bool :=
  match s with
  | [] => true
  | c :: _ => negb (is_space c) && negb (is_space (last s c))
  end.

(** Payloads that [express.json()] lets pass. *)
Definition body_accepted (p : Payload) : bool :=
  match p with
  | NoPayload | Multipart _ | JsonBody (Obj _) | JsonBody (Arr _) => true
  | JsonBody _ | JsonRejected _ => false
  end.




(** ** A scripted platform, for running the model on concrete requests *)

Module Script.

Record world := {
  clock : Z;
  next_uuid : jsstring;
  upload_reply : Settled;
  delete_reply : Settled
}.

Definition platform : Platform := {|
  World := world;
  Date_now := fun w => (clock w, w);
  uuidv4 := fun w => (next_uuid w, w);
  imagekit_upload := fun _ w => (upload_reply w, w);
  imagekit_deleteFile := fun _ w => (delete_reply w, w)
|}.

Definition stored : value :=
  Obj [(lit "fileId", Str (lit "65f0c1"));
       (lit "url", Str (lit "https://ik.imagekit.io/demo/product-images/a.jpg"))].

Definition failure (msg : jsstring) : value :=
  Obj [(lit "name", Str (lit "Error")); (lit "message", Str msg)].

Definition w0 : world := {|
  clock := 1700000000000;
  next_uuid := lit "3b241101-e2bb-4255-8caf-4136c566a962";
  upload_reply := Fulfilled stored;
  delete_reply := Fulfilled Undefined
|}.

Definition rejecting (e : value) : world := {|
  clock := 1700000000000;
  next_uuid := lit "3b241101-e2bb-4255-8caf-4136c566a962";
  upload_reply := Rejected e;
  delete_reply := Rejected e
|}.

(** An environment with the credentials set and two allowed origins. *)
Definition env : Env := {|
  env_PORT := None;
  env_ALLOW_ORIGIN :=
    Some (lit "https://shop.example, http://localhost:3000");
  env_IMAGEKIT_PUBLIC_KEY := Some (lit "public_k");
  env_IMAGEKIT_PRIVATE_KEY := Some (lit "private_k");
  env_IMAGEKIT_URL_ENDPOINT := Some (lit "https://ik.imagekit.io/demo");
  env_IMAGEKIT_FOLDER := None
|}.

Definition jpeg : MulterFile := {|
  fieldname := lit "file";
  originalname := lit "a b?.jpg";
  mimetype := lit "image/jpeg";
  buffer := repeat Byte.xff 10
|}.

Definition text : MulterFile := {|
  fieldname := lit "file";
  originalname := lit "notes.txt";
  mimetype := lit "text/plain";
  buffer := repeat Byte.x61 4
|}.

(** A file one byte over the limit. *)
Definition oversized : MulterFile := {|
  fieldname := lit "file";
  originalname := lit "big.jpg";
  mimetype := lit "image/jpeg";
  buffer := repeat Byte.x00 (N.to_nat (10 * MiB + 1))
|}.

(** A file of exactly the limit. *)
Definition at_limit : MulterFile := {|
  fieldname := lit "file";
  originalname := lit "full.jpg";
  mimetype := lit "image/jpeg";
  buffer := repeat Byte.x00 (N.to_nat (10 * MiB))
|}.

Definition with_file (f : option MulterFile) : Req.t :=
  Req.with_file f
    (Req.with_body (Obj [])
       (Req.incoming POST (lit "/upload") None
          (Multipart match f with Some p => [p] | None => [] end))).

Definition delete_with (body : value) : Req.t :=
  Req.with_body body
    (Req.incoming DELETE (lit "/image") None (JsonBody body)).

End Script.

(** The handlers and the application on the scripted platform. *)
Local Abbreviation run_upload := (@upload_handler Script.platform Script.env).
Local Abbreviation run_delete := (@delete_handler Script.platform).
Local Abbreviation run_app := (@app Script.platform Script.env).

(** * Properties *)

Unset Implicit Arguments.

Section Handlers.
Context {P : Platform}.
Variable env : Env.

(** ** Reading properties *)

Lemma get_not_nullish (v : value) (k : jsstring) :
  is_nullish v = false -> get v k = Some (get_opt v k).
Proof.
  unfold get_opt. destruct v; simpl; intros H; try reflexivity; discriminate.
Qed.

Lemma or_else_object_not_nullish (v : value) :
  is_nullish (or_else v (Obj [])) = false.
Proof.
  unfold or_else. destruct (to_boolean v) eqn:T; [|reflexivity].
  destruct v; simpl in *; congruence.
Qed.

Lemma falsy_to_boolean (v : value) : falsy v <-> to_boolean v = false.
Proof.
  split.
  - intros H. destruct H; reflexivity.
  - destruct v as [ | | b | n | s | xs | fs ]; simpl; intros H;
      try discriminate; try constructor.
    + subst b. constructor.
    + destruct n; try discriminate; constructor.
    + destruct s; try discriminate; constructor.
Qed.

Lemma read_fileId (body : value) (s : State) :
  read (or_else body (Obj [])) (lit "fileId") s
  = (Normal (fileId_of body), s).
Proof.
  unfold read, fileId_of.
  rewrite (get_not_nullish _ (lit "fileId") (or_else_object_not_nullish body)).
  reflexivity.
Qed.

(** The [catch] block on a value whose properties can be read. *)
Lemma on_error_spec (label : jsstring) (res : Res.t) (e msg : value)
  (w : World) (tr : list Effect) :
  get e (lit "message") = Some msg ->
  on_error label res e (w, tr)
  = (Normal {| Res.statusCode := 500;
               Res.headers := Res.headers res;
               Res.content :=
                 Json (Obj [(lit "error",
                             if to_boolean msg then msg
                             else Str (lit "Server error"))]) |},
     (w, tr ++ [EvConsoleError label e])).
Proof.
  intros H. unfold on_error, console_error, perform, bind, read. simpl.
  rewrite H. reflexivity.
Qed.

(** On [undefined] or [null] the [catch] block itself raises, and the
    handler's promise rejects. *)
Lemma on_error_nullish (label : jsstring) (res : Res.t) (e : value)
  (w : World) (tr : list Effect) :
  is_nullish e = true ->
  on_error label res e (w, tr)
  = (Throw TypeError, (w, tr ++ [EvConsoleError label e])).
Proof.
  intros H. unfold on_error, console_error, perform, bind, read. simpl.
  destruct e; try discriminate; reflexivity.
Qed.

(** ** The upload handler *)

(** C7. A POST /upload request with no file part under field [file]
    ([req.file] is undefined) is answered 400 with body
    [{error: "No file provided"}]; the world and the trace of effects are
    unchanged, so no name was generated and the Storage Gateway was not
    called. *)
Theorem upload_without_file (req : Req.t) (res : Res.t) (s : State) :
  Req.file req = None ->
  upload_handler env req res s
  = (Normal {| Res.statusCode := 400;
               Res.headers := Res.headers res;
               Res.content :=
                 Json (Obj [(lit "error", Str (lit "No file provided"))]) |},
     s).
Proof.
  intros H. unfold upload_handler, try_catch. rewrite H. reflexivity.
Qed.

(** C1. A POST /upload request whose file has a [mimetype] that does not
    start with [image/] is answered 400 with body
    [{error: "Only image uploads are allowed"}]; the world and the trace
    are unchanged, so the Storage Gateway upload is never invoked. *)
Theorem upload_rejects_non_image (req : Req.t) (res : Res.t)
  (f : MulterFile) (s : State) :
  Req.file req = Some f ->
  startsWith (mimetype f) (lit "image/") = false ->
  upload_handler env req res s
  = (Normal {| Res.statusCode := 400;
               Res.headers := Res.headers res;
               Res.content :=
                 Json (Obj [(lit "error",
                             Str (lit "Only image uploads are allowed"))]) |},
     s)
  /\ gateway_calls (snd (snd (upload_handler env req res s)))
     = gateway_calls (snd s).
Proof.
  intros Hf Hm.
  assert (E : upload_handler env req res s
              = (Normal {| Res.statusCode := 400;
                           Res.headers := Res.headers res;
                           Res.content :=
                             Json (Obj [(lit "error",
                                         Str (lit "Only image uploads are allowed"))]) |},
                 s)).
  { unfold upload_handler, try_catch. rewrite Hf, Hm. reflexivity. }
  split; [exact E | rewrite E; reflexivity].
Qed.

(** The validated path up to the gateway's answer: the clock is read, a
    UUID drawn and the gateway called once. *)
Lemma upload_validated (req : Req.t) (res : Res.t) (f : MulterFile)
  (w w1 w2 w3 : World) (tr : list Effect) (now : Z) (uuid : jsstring)
  (r : Settled) :
  Req.file req = Some f ->
  startsWith (mimetype f) (lit "image/") = true ->
  Date_now w = (now, w1) ->
  uuidv4 w1 = (uuid, w2) ->
  imagekit_upload
    (upload_options env (buffer f) (storage_key now uuid (originalname f))) w2
  = (r, w3) ->
  let o := upload_options env (buffer f)
                          (storage_key now uuid (originalname f)) in
  let tr' := tr ++ [EvDateNow; EvUuid; EvUpload o] in
  upload_handler env req res (w, tr)
  = match r with
    | Rejected e => on_error (lit "Upload handler error:") res e (w3, tr')
    | Fulfilled result =>
        if to_boolean (get_opt result (lit "url")) then
          (Normal (Res.json (Obj [(lit "url", get_opt result (lit "url"));
                                  (lit "fileId", get_opt result (lit "fileId"))])
                            res),
           (w3, tr'))
        else
          (Normal (Res.json (error_body (Str (lit "ImageKit upload failed")))
                            (Res.status 500 res)),
           (w3, tr'))
    end.
Proof.
  intros Hf Hm Hn Hu Hg o tr'.
  unfold upload_handler, try_catch, await, perform, bind. rewrite Hf, Hm.
  cbn [negb fst snd]. rewrite Hn. cbn [fst snd]. rewrite Hu. cbn [fst snd].
  fold o in Hg |- *. rewrite Hg. cbn [fst snd].
  assert (Etr : ((tr ++ [EvDateNow]) ++ [EvUuid]) ++ [EvUpload o] = tr').
  { unfold tr'. rewrite <- !app_assoc. reflexivity. }
  rewrite Etr.
  destruct r as [result | e]; simpl; [|reflexivity].
  destruct (to_boolean (get_opt result (lit "url"))) eqn:T; simpl;
    [|reflexivity].
  assert (N : is_nullish result = false).
  { destruct result; simpl in *; try reflexivity; discriminate. }
  unfold read. rewrite !(get_not_nullish result _ N). reflexivity.
Qed.

Lemma on_error_trace (label : jsstring) (res : Res.t) (e : value)
  (w : World) (tr : list Effect) :
  snd (on_error label res e (w, tr)) = (w, tr ++ [EvConsoleError label e]).
Proof.
  destruct (is_nullish e) eqn:N.
  - rewrite (on_error_nullish label res e w tr N). reflexivity.
  - rewrite (on_error_spec label res e _ w tr
               (get_not_nullish e (lit "message") N)).
    reflexivity.
Qed.

(** C3. On the validated path of POST /upload, with [r] the way the
    gateway's upload call settles: when it throws an error [e] (a value
    whose properties can be read) the response is 500 and its [error] is
    [e.message] when that is truthy and ["Server error"] otherwise; when it
    returns a result without a truthy [url] the response is 500 with
    [error: "ImageKit upload failed"]; otherwise the response keeps its
    status and its body is [{url, fileId}] read from the result. *)
Theorem upload_gateway_outcome (req : Req.t) (res : Res.t) (f : MulterFile)
  (w w1 w2 w3 : World) (tr : list Effect) (now : Z) (uuid : jsstring)
  (r : Settled) :
  Req.file req = Some f ->
  startsWith (mimetype f) (lit "image/") = true ->
  Date_now w = (now, w1) ->
  uuidv4 w1 = (uuid, w2) ->
  imagekit_upload
    (upload_options env (buffer f) (storage_key now uuid (originalname f))) w2
  = (r, w3) ->
  let o := upload_options env (buffer f)
                          (storage_key now uuid (originalname f)) in
  let tr' := tr ++ [EvDateNow; EvUuid; EvUpload o] in
  match r with
  | Rejected e =>
      is_nullish e = false ->
      let message := get_opt e (lit "message") in
      upload_handler env req res (w, tr)
      = (Normal {| Res.statusCode := 500;
                   Res.headers := Res.headers res;
                   Res.content :=
                     Json (Obj [(lit "error",
                                 if to_boolean message then message
                                 else Str (lit "Server error"))]) |},
         (w3, tr' ++ [EvConsoleError (lit "Upload handler error:") e]))
  | Fulfilled result =>
      if to_boolean (get_opt result (lit "url")) then
        upload_handler env req res (w, tr)
        = (Normal {| Res.statusCode := Res.statusCode res;
                     Res.headers := Res.headers res;
                     Res.content :=
                       Json (Obj [(lit "url", get_opt result (lit "url"));
                                  (lit "fileId", get_opt result (lit "fileId"))]) |},
           (w3, tr'))
      else
        upload_handler env req res (w, tr)
        = (Normal {| Res.statusCode := 500;
                     Res.headers := Res.headers res;
                     Res.content :=
                       Json (Obj [(lit "error",
                                   Str (lit "ImageKit upload failed"))]) |},
           (w3, tr'))
  end.
Proof.
  intros Hf Hm Hn Hu Hg o tr'.
  pose proof (upload_validated req res f w w1 w2 w3 tr now uuid r
                               Hf Hm Hn Hu Hg) as E.
  cbv zeta in E. fold o in E. fold tr' in E.
  destruct r as [result | e].
  - destruct (to_boolean (get_opt result (lit "url"))); exact E.
  - intros N message. rewrite E.
    apply on_error_spec. apply get_not_nullish. exact N.
Qed.


(** ** The delete handler *)

Lemma delete_without_fileId (req : Req.t) (res : Res.t) (s : State) :
  to_boolean (fileId_of (Req.body req)) = false ->
  delete_handler req res s
  = (Normal {| Res.statusCode := 400;
               Res.headers := Res.headers res;
               Res.content :=
                 Json (Obj [(lit "error", Str (lit "fileId is required"))]) |},
     s).
Proof.
  intros H. unfold delete_handler, try_catch, bind.
  rewrite read_fileId, H. reflexivity.
Qed.

Lemma delete_with_fileId (req : Req.t) (res : Res.t) (w w' : World)
  (tr : list Effect) (r : Settled) :
  let fileId := fileId_of (Req.body req) in
  to_boolean fileId = true ->
  imagekit_deleteFile fileId w = (r, w') ->
  delete_handler req res (w, tr)
  = match r with
    | Fulfilled _ =>
        (Normal (Res.json (Obj [(lit "ok", Bool true)]) res),
         (w', tr ++ [EvDelete fileId]))
    | Rejected e =>
        on_error (lit "Delete handler error:") res e
                 (w', tr ++ [EvDelete fileId])
    end.
Proof.
  intros fileId T Hd. unfold delete_handler, try_catch, bind.
  rewrite read_fileId. fold fileId. rewrite T.
  unfold await, perform, bind. cbn [negb fst snd]. rewrite Hd.
  destruct r; reflexivity.
Qed.

(** C10. A DELETE /image request whose [fileId] is falsy - absent,
    [null], the empty string, zero, NaN or [false] - is answered 400 with
    body [{error: "fileId is required"}]; the world and the trace are
    unchanged, so the Storage Gateway delete is never invoked. *)
Theorem delete_falsy_fileId (req : Req.t) (res : Res.t) (s : State) :
  falsy (fileId_of (Req.body req)) ->
  delete_handler req res s
  = (Normal {| Res.statusCode := 400;
               Res.headers := Res.headers res;
               Res.content :=
                 Json (Obj [(lit "error", Str (lit "fileId is required"))]) |},
     s)
  /\ gateway_calls (snd (snd (delete_handler req res s)))
     = gateway_calls (snd s).
Proof.
  intros H. apply falsy_to_boolean in H.
  rewrite (delete_without_fileId req res s H). split; reflexivity.
Qed.

(** C4, as the code has it. For a DELETE /image request: when the body
    has no [fileId] the response is 400 with [{error: "fileId is
    required"}] and the gateway is not called; when the [fileId] is truthy
    the gateway's delete is called with it, and if that throws an error
    [e] the response is 500 whose [error] is [e.message] when that is
    truthy and ["Server error"] otherwise, and if it succeeds the response
    is [{ok: true}]. *)
Theorem delete_outcome (req : Req.t) (res : Res.t) (w w' : World)
  (tr : list Effect) (r : Settled) :
  let fileId := fileId_of (Req.body req) in
  imagekit_deleteFile fileId w = (r, w') ->
  (fileId = Undefined ->
   delete_handler req res (w, tr)
   = (Normal {| Res.statusCode := 400;
                Res.headers := Res.headers res;
                Res.content :=
                  Json (Obj [(lit "error", Str (lit "fileId is required"))]) |},
      (w, tr)))
  /\ (to_boolean fileId = true ->
      match r with
      | Fulfilled _ =>
          delete_handler req res (w, tr)
          = (Normal {| Res.statusCode := Res.statusCode res;
                       Res.headers := Res.headers res;
                       Res.content := Json (Obj [(lit "ok", Bool true)]) |},
             (w', tr ++ [EvDelete fileId]))
      | Rejected e =>
          is_nullish e = false ->
          let message := get_opt e (lit "message") in
          delete_handler req res (w, tr)
          = (Normal {| Res.statusCode := 500;
                       Res.headers := Res.headers res;
                       Res.content :=
                         Json (Obj [(lit "error",
                                     if to_boolean message then message
                                     else Str (lit "Server error"))]) |},
             (w', tr ++ [EvDelete fileId;
                         EvConsoleError (lit "Delete handler error:") e]))
      end).
Proof.
  intros fileId Hd. split.
  - intros U. apply delete_without_fileId. fold fileId. rewrite U. reflexivity.
  - intros T.
    pose proof (delete_with_fileId req res w w' tr r T Hd) as E.
    fold fileId in E.
    destruct r as [v | e]; [exact E|].
    intros N message. rewrite E.
    rewrite (on_error_spec _ res e _ w' _
               (get_not_nullish e (lit "message") N)).
    rewrite <- app_assoc. reflexivity.
Qed.

End Handlers.

(** ** The name generator *)

Section NameGenerator.

Lemma class_is_name_char (c : code_unit) :
  class_matches
    {| negated := true;
       atoms := [CRange (unit_of "a") (unit_of "z");
                 CRange (unit_of "A") (unit_of "Z");
                 CRange (unit_of "0") (unit_of "9");
                 CChar (unit_of "."); CChar (unit_of "_"); CChar (unit_of "-")] |}
    c = false
  <-> name_char c.
Proof.
  unfold class_matches, name_char.
  cbn [negated atoms existsb atom_matches].
  change (unit_of "a") with 97%N. change (unit_of "z") with 122%N.
  change (unit_of "A") with 65%N. change (unit_of "Z") with 90%N.
  change (unit_of "0") with 48%N. change (unit_of "9") with 57%N.
  change (unit_of ".") with 46%N. change (unit_of "_") with 95%N.
  change (unit_of "-") with 45%N.
  rewrite xorb_true_l, orb_false_r.
  rewrite negb_false_iff, !orb_true_iff, !andb_true_iff, !N.leb_le, !N.eqb_eq.
  lia.
Qed.

(** The replacement works unit by unit. *)
Lemma safeName_map (s : jsstring) :
  safeName s
  = map (fun c =>
           if class_matches
                {| negated := true;
                   atoms := [CRange (unit_of "a") (unit_of "z");
                             CRange (unit_of "A") (unit_of "Z");
                             CRange (unit_of "0") (unit_of "9");
                             CChar (unit_of "."); CChar (unit_of "_");
                             CChar (unit_of "-")] |} c
           then 95%N else c) s.
Proof.
  unfold safeName, replace_all.
  induction s as [|c s IH]; [reflexivity|].
  cbn [flat_map map]. rewrite IH.
  destruct (class_matches _ c); reflexivity.
Qed.

Lemma safeName_length (s : jsstring) :
  List.length (safeName s) = List.length s.
Proof. rewrite safeName_map. apply length_map. Qed.

Lemma safeName_nth (s : jsstring) (i : nat) (c : code_unit) :
  nth_error s i = Some c ->
  (name_char c -> nth_error (safeName s) i = Some c)
  /\ (~ name_char c -> nth_error (safeName s) i = Some 95%N).
Proof.
  intros H. rewrite safeName_map, nth_error_map, H. cbn [option_map].
  destruct (class_matches _ c) eqn:M; split; intros K; try reflexivity.
  - exfalso. apply class_is_name_char in K. congruence.
  - exfalso. apply K. apply class_is_name_char. exact M.
Qed.

Lemma safeName_chars (s : jsstring) : Forall name_char (safeName s).
Proof.
  rewrite safeName_map. apply Forall_map, Forall_forall. intros c _.
  destruct (class_matches _ c) eqn:M.
  - unfold name_char. lia.
  - apply class_is_name_char. exact M.
Qed.

(** Decimal digits of the timestamp. *)
Lemma uint_units_digits (d : Decimal.uint) : Forall is_digit (uint_units d).
Proof.
  induction d; cbn [uint_units]; constructor; try assumption;
    unfold is_digit, digit_unit; lia.
Qed.

Lemma decimal_value_acc (d : Decimal.uint) (acc : positive) :
  fold_left (fun a c => (a * 10 + (c - 48))%N) (uint_units d) (N.pos acc)
  = N.pos (Pos.of_uint_acc d acc).
Proof.
  revert acc.
  induction d; intros acc; cbn [uint_units fold_left Pos.of_uint_acc];
    [reflexivity | ..];
    match goal with
    | |- fold_left _ _ ?x = N.pos (Pos.of_uint_acc _ ?p) =>
        replace x with (N.pos p) by (unfold digit_unit; lia)
    end;
    apply IHd.
Qed.

Lemma decimal_value_uint (d : Decimal.uint) :
  decimal_value (uint_units d) = Pos.of_uint d.
Proof.
  unfold decimal_value.
  induction d; cbn [uint_units fold_left Pos.of_uint];
    [reflexivity | exact IHd | ..];
    match goal with
    | |- fold_left _ _ ?x = N.pos (Pos.of_uint_acc _ ?p) =>
        replace x with (N.pos p) by (unfold digit_unit; lia)
    end;
    apply decimal_value_acc.
Qed.

Lemma integer_to_string_value (z : Z) :
  (0 <= z)%Z ->
  Forall is_digit (integer_to_string z)
  /\ Z.of_N (decimal_value (integer_to_string z)) = z.
Proof.
  intros H. unfold integer_to_string.
  destruct z as [|p|p]; [| |lia]; cbn [Z.to_int].
  - split; [apply uint_units_digits | reflexivity].
  - split; [apply uint_units_digits|].
    rewrite decimal_value_uint, DecimalPos.Unsigned.of_to. reflexivity.
Qed.

Lemma integer_to_string_chars (z : Z) :
  Forall name_char (integer_to_string z).
Proof.
  assert (D : forall d, Forall name_char (uint_units d)).
  { intros d. eapply Forall_impl; [|apply uint_units_digits].
    unfold is_digit, name_char. intros; lia. }
  unfold integer_to_string. destruct (Z.to_int z); [apply D|].
  constructor; [unfold name_char; lia | apply D].
Qed.

(** Every unit of a version-4 UUID is a hexadecimal digit or a hyphen. *)
Lemma forallb_combine_right {A B : Type} (p : A * B -> bool)
  (xs : list A) (ys : list B) :
  (List.length ys <= List.length xs)%nat ->
  forallb p (combine xs ys) = true ->
  forall y, In y ys -> exists x, p (x, y) = true.
Proof.
  revert xs. induction ys as [|y0 ys IH]; intros xs L F y I; [destruct I|].
  destruct xs as [|x xs]; [cbn in L; lia|].
  cbn in F. apply andb_true_iff in F. destruct F as [F0 F].
  destruct I as [->|I].
  - exists x. exact F0.
  - apply (IH xs); [cbn in L; lia | exact F | exact I].
Qed.

Lemma uuid_chars (u : jsstring) :
  is_uuid_v4 u = true -> Forall name_char u.
Proof.
  unfold is_uuid_v4. intros H. apply andb_true_iff in H. destruct H as [L F].
  apply Nat.eqb_eq in L. apply Forall_forall. intros c I.
  destruct (forallb_combine_right _ (seq 0 36) u
              ltac:(rewrite length_seq; lia) F c I) as [i E].
  cbv beta iota in E. unfold name_char.
  destruct ((i =? 8) || (i =? 13) || (i =? 18) || (i =? 23))%nat.
  { apply N.eqb_eq in E. lia. }
  destruct (i =? 14)%nat.
  { apply N.eqb_eq in E. lia. }
  destruct (i =? 19)%nat.
  { rewrite !orb_true_iff, !N.eqb_eq in E. lia. }
  unfold is_hex in E.
  rewrite orb_true_iff, !andb_true_iff, !N.leb_le in E. lia.
Qed.

(** C2. The storage key is the clock reading in decimal, a hyphen, the
    UUID, a hyphen and the sanitized name; the sanitized name has the
    length of the original, keeps each unit of [[A-Za-z0-9._-]] in place
    and has an underscore in place of every other unit; a non-negative
    clock reading is written as the digits that denote it; and with a
    version-4 UUID every unit of the key is in [[A-Za-z0-9._-]]. *)
Theorem storage_key_shape (now : Z) (uuid originalname : jsstring) :
  let safe := safeName originalname in
  storage_key now uuid originalname
  = integer_to_string now ++ [45%N] ++ uuid ++ [45%N] ++ safe
  /\ List.length safe = List.length originalname
  /\ (forall i c,
         nth_error originalname i = Some c ->
         (name_char c -> nth_error safe i = Some c)
         /\ (~ name_char c -> nth_error safe i = Some 95%N))
  /\ ((0 <= now)%Z ->
      Forall is_digit (integer_to_string now)
      /\ Z.of_N (decimal_value (integer_to_string now)) = now)
  /\ (is_uuid_v4 uuid = true ->
      Forall name_char (storage_key now uuid originalname)).
Proof.
  intros safe. repeat split.
  - apply safeName_length.
  - apply (safeName_nth originalname i c H).
  - apply (safeName_nth originalname i c H).
  - apply (integer_to_string_value now H).
  - apply (integer_to_string_value now H).
  - intros U. unfold storage_key.
    repeat (apply Forall_app; split);
      try apply integer_to_string_chars;
      try apply safeName_chars;
      try (apply uuid_chars; exact U);
      repeat constructor; unfold name_char; cbn; lia.
Qed.

End NameGenerator.

(** ** Origin admission, pre-flight and file intake *)

Section Pipeline.
Context {P : Platform}.
Variable env : Env.

Lemma str_eqb_eq (a b : jsstring) : str_eqb a b = true <-> a = b.
Proof.
  revert b. induction a as [|x a IH]; intros [|y b]; cbn; split;
    try congruence; try reflexivity.
  - intros H. apply andb_true_iff in H. destruct H as [H1 H2].
    apply N.eqb_eq in H1. apply IH in H2. congruence.
  - intros H. injection H as -> ->. rewrite N.eqb_refl.
    apply IH. reflexivity.
Qed.

Lemma includes_In (xs : list jsstring) (s : jsstring) :
  includes xs s = true <-> In s xs.
Proof.
  unfold includes. rewrite existsb_exists. split.
  - intros [x [I E]]. apply str_eqb_eq in E. subst. exact I.
  - intros I. exists s. split; [exact I | apply str_eqb_eq; reflexivity].
Qed.

(** No entry of the allow-list is empty. *)
Lemma allowedOrigins_nonempty : ~ In [] (allowedOrigins env).
Proof.
  unfold allowedOrigins. intros H. apply filter_In in H.
  destruct H as [_ H]. discriminate.
Qed.

Lemma admitted_spec (o : option jsstring) :
  admitted env o = true
  <-> o = None \/ o = Some []
      \/ exists x, o = Some x /\ In x (allowedOrigins env).
Proof.
  unfold admitted. cbn [corsOptions cors_origin].
  destruct o as [[|c x]|]; cbn [no_origin].
  - split; auto.
  - destruct (includes (allowedOrigins env) (c :: x)) eqn:I.
    + split; [|reflexivity]. intros _. right. right.
      exists (c :: x). split; [reflexivity | apply includes_In; exact I].
    + split; [discriminate|].
      intros [H | [H | [y [H K]]]]; try discriminate.
      injection H as <-. apply includes_In in K. congruence.
  - split; auto.
Qed.

Lemma cors_origin_denied (o : option jsstring) :
  admitted env o = false ->
  cors_origin (corsOptions env) o
  = (Some (Error (lit "Not allowed by CORS")), false).
Proof.
  unfold admitted. cbn [corsOptions cors_origin].
  destruct (no_origin o); [discriminate|].
  destruct (includes _ _); [discriminate | reflexivity].
Qed.

Lemma cors_origin_admitted (o : option jsstring) :
  admitted env o = true ->
  cors_origin (corsOptions env) o = (None, true).
Proof.
  unfold admitted. cbn [corsOptions cors_origin].
  destruct (no_origin o); [reflexivity|].
  destruct (includes _ _); [reflexivity | discriminate].
Qed.

(** A request that is turned away never reaches a route. *)
Lemma app_denied (req : Req.t) (s : State) :
  admitted env (Req.origin req) = false ->
  app env req s = (Normal (Responded denial), s).
Proof.
  intros H. unfold app, layers, dispatch, layer_matches. cbn [matcher stack].
  unfold run_stack, middleware, cors, bind, ret.
  rewrite (cors_origin_denied _ H). reflexivity.
Qed.

(** A request that is let through is answered at once when it is a
    pre-flight, and goes on to the remaining layers otherwise. *)
Lemma app_admitted (req : Req.t) (s : State) :
  admitted env (Req.origin req) = true ->
  app env req s
  = if Method_eqb (Req.method req) OPTIONS
    then (Normal (Responded (preflight env req)), s)
    else dispatch (tl (layers env)) req (configureOrigin req Res.fresh) s.
Proof.
  intros H. unfold app.
  change (layers env) with (hd {| matcher := Use; stack := [] |} (layers env)
                            :: tl (layers env)).
  cbn [dispatch hd layers layer_matches matcher stack].
  unfold run_stack, middleware, cors, bind, ret.
  rewrite (cors_origin_admitted _ H).
  destruct (Method_eqb (Req.method req) OPTIONS); reflexivity.
Qed.

(** C5, as the code has it. The origin callback lets a request through
    exactly when its Origin header is absent, empty, or equal to an entry
    of the allow-list; a request it turns away is answered by the default
    error handler (status 500, an error page) with the world and the trace
    unchanged, so no route handler ran; a request it lets through is
    answered as a pre-flight or handed to the remaining layers. *)
Theorem origin_admission (req : Req.t) (s : State) :
  let o := Req.origin req in
  (admitted env o = true
   <-> o = None \/ o = Some []
       \/ exists x, o = Some x /\ In x (allowedOrigins env))
  /\ (admitted env o = false ->
      app env req s = (Normal (Responded denial), s)
      /\ Res.statusCode denial = 500%Z
      /\ Res.content denial = ErrorPage)
  /\ (admitted env o = true ->
      app env req s
      = if Method_eqb (Req.method req) OPTIONS
        then (Normal (Responded (preflight env req)), s)
        else dispatch (tl (layers env)) req
                      (configureOrigin req Res.fresh) s).
Proof.
  intros o. split; [apply admitted_spec|]. split.
  - intros H. split; [apply app_denied; exact H | split; reflexivity].
  - intros H. apply app_admitted. exact H.
Qed.

Lemma preflight_headers (req : Req.t) :
  Res.statusCode (preflight env req) = 204%Z
  /\ Res.content (preflight env req) = EmptyBody
  /\ advertised_methods (preflight env req)
     = Some [lit "GET"; lit "POST"; lit "DELETE"; lit "OPTIONS"]
  /\ advertised_headers (preflight env req)
     = Some [lit "Content-Type"; lit "Authorization"]
  /\ Res.header (lit "Access-Control-Allow-Credentials") (preflight env req)
     = None.
Proof.
  unfold preflight, configureOrigin.
  destruct (Req.origin req) as [[|c o]|]; repeat split.
Qed.

(** C9, as the code has it. A pre-flight (OPTIONS) request, on any path,
    is decided by the same origin callback as every other request: turned
    away, it gets the same error response; let through, it is answered 204
    with no body, advertising the methods GET, POST, DELETE and OPTIONS
    and the headers Content-Type and Authorization, and without
    Access-Control-Allow-Credentials. *)
Theorem preflight_answer (req : Req.t) (s : State) :
  Req.method req = OPTIONS ->
  (admitted env (Req.origin req) = false ->
   app env req s = (Normal (Responded denial), s)
   /\ forall req' : Req.t,
        Req.origin req' = Req.origin req ->
        app env req' s = (Normal (Responded denial), s))
  /\ (admitted env (Req.origin req) = true ->
      exists res : Res.t,
        app env req s = (Normal (Responded res), s)
        /\ Res.statusCode res = 204%Z
        /\ Res.content res = EmptyBody
        /\ advertised_methods res
           = Some [lit "GET"; lit "POST"; lit "DELETE"; lit "OPTIONS"]
        /\ advertised_headers res
           = Some [lit "Content-Type"; lit "Authorization"]
        /\ Res.header (lit "Access-Control-Allow-Credentials") res = None).
Proof.
  intros M. split.
  - intros H. split; [apply app_denied; exact H|].
    intros req' E. apply app_denied. rewrite E. exact H.
  - intros H. exists (preflight env req). split.
    + rewrite (app_admitted req s H), M. reflexivity.
    + apply preflight_headers.
Qed.

(** *** File intake *)

Lemma intake_oversized (name : jsstring) (parts : list MulterFile) :
  Exists (fun p => (10 * MiB < size p)%N) parts ->
  forall (n : nat) (got : option MulterFile),
  exists e : Err,
    intake upload name n parts got = inl e /\ err_status e = None.
Proof.
  induction parts as [|p ps IH]; intros H n got;
    [inversion H|].
  cbn [intake]. destruct n as [|n]; [eexists; split; reflexivity|].
  destruct (negb (str_eqb (fieldname p) name));
    [eexists; split; reflexivity|].
  destruct (limits_fileSize upload <=? size p)%N eqn:L;
    [eexists; split; reflexivity|].
  apply IH. inversion H as [? ? B | ? ? B]; subst; [|exact B].
  apply N.leb_gt in L. change (limits_fileSize upload) with (10 * MiB)%N in L.
  lia.
Qed.

Lemma intake_bound (name : jsstring) (parts : list MulterFile) :
  forall (n : nat) (got f : option MulterFile),
    intake upload name n parts got = inr f ->
    (forall g, got = Some g -> (size g <= 10 * MiB)%N) ->
    forall g, f = Some g -> (size g <= 10 * MiB)%N.
Proof.
  induction parts as [|p ps IH]; intros n got f H G g E.
  - cbn in H. injection H as <-. apply G. exact E.
  - cbn [intake] in H. destruct n as [|n]; [discriminate|].
    destruct (negb (str_eqb (fieldname p) name)); [discriminate|].
    destruct (limits_fileSize upload <=? size p)%N eqn:L; [discriminate|].
    apply N.leb_gt in L. change (limits_fileSize upload) with (10 * MiB)%N in L.
    apply (IH n _ f H); [|exact E].
    intros g' K. destruct got as [g0|].
    + apply G. exact K.
    + injection K as <-. lia.
Qed.

(** What [single] hands to the handler is within the limit. *)
Lemma single_bound (req req' : Req.t) (res res' : Res.t) (f : MulterFile) :
  Req.file req = None ->
  single upload (lit "file") req res = Next req' res' ->
  Req.file req' = Some f ->
  (size f <= 10 * MiB)%N.
Proof.
  intros H0 H F. unfold single in H.
  destruct (Req.payload req) as [ | v | st | parts ];
    try (injection H as <- _; congruence).
  destruct (intake upload (lit "file") 1 parts None) as [e | g] eqn:I;
    [discriminate|].
  injection H as <- _. cbn in F.
  apply (intake_bound (lit "file") parts 1 None g I); [discriminate | exact F].
Qed.

Lemma dispatch_skip (l : Layer) (ls : list Layer) (req : Req.t)
  (res : Res.t) (s : State) :
  layer_matches l req = false ->
  dispatch (l :: ls) req res s = dispatch ls req res s.
Proof. intros H. cbn [dispatch]. rewrite H. reflexivity. Qed.

Lemma dispatch_step (l : Layer) (ls : list Layer) (req : Req.t)
  (res : Res.t) (s s' : State) (st : Step) :
  layer_matches l req = true ->
  run_stack (stack l) req res s = (Normal st, s') ->
  dispatch (l :: ls) req res s
  = match st with
    | Next req' res' => dispatch ls req' res' s'
    | NextErr e res' => (Normal (Responded (default_error_handler e res')), s')
    | End res' => (Normal (Responded res'), s')
    | Pending e _ => (Normal (NoResponse e), s')
    end.
Proof.
  intros H R. cbn [dispatch]. rewrite H. unfold bind. rewrite R.
  destruct st; reflexivity.
Qed.

(** A multipart POST /upload whose intake fails is answered by the
    default error handler; the upload handler is not run. *)
Lemma app_intake_error (req : Req.t) (s : State) (parts : list MulterFile)
  (e : Err) :
  Req.method req = POST ->
  path_matches (lit "/upload") (Req.path req) = true ->
  admitted env (Req.origin req) = true ->
  Req.payload req = Multipart parts ->
  intake upload (lit "file") 1 parts None = inl e ->
  err_status e = None ->
  app env req s
  = (Normal (Responded {| Res.statusCode := 500;
                          Res.headers :=
                            Res.headers (configureOrigin req Res.fresh);
                          Res.content := ErrorPage |}),
     s).
Proof.
  intros M Pm A Pl I St.
  rewrite (app_admitted req s A), M. cbn [Method_eqb tl layers].
  set (req1 := Req.with_body (or_else (Req.body req) (Obj [])) req).
  set (res1 := configureOrigin req Res.fresh).
  assert (M1 : Req.method req1 = POST) by exact M.
  (* app.options('*', ...) *)
  rewrite dispatch_skip
    by (unfold layer_matches, method_matches; cbn [matcher]; rewrite M;
        reflexivity).
  (* express.json() *)
  rewrite (dispatch_step _ _ req res1 s s (Next req1 res1))
    by (try reflexivity;
        cbn [stack run_stack]; unfold middleware, bind, ret, express_json;
        rewrite Pl; reflexivity).
  (* GET / and GET /health *)
  do 2 rewrite dispatch_skip
    by (unfold layer_matches, method_matches; cbn [matcher]; rewrite M1;
        reflexivity).
  (* POST /upload *)
  rewrite (dispatch_step _ _ req1 res1 s s (NextErr e res1)).
  - unfold default_error_handler, error_status. rewrite St.
    unfold res1, configureOrigin.
    destruct (Req.origin req) as [[|c o]|]; reflexivity.
  - unfold layer_matches, method_matches. cbn [matcher]. rewrite M1.
    change (Req.path req1) with (Req.path req). rewrite Pm. reflexivity.
  - cbn [stack run_stack]. unfold middleware, bind, ret, single.
    change (Req.payload req1) with (Req.payload req). rewrite Pl, I.
    reflexivity.
Qed.

(** C6, as the code has it. A POST /upload request with a file part
    larger than 10 MiB is answered by the default error handler with
    status 500 and an error page, the world and the trace unchanged: the
    upload handler body does not run. And a file that [upload.single]
    hands to the handler has at most 10 MiB. *)
Theorem oversized_upload_fails (req : Req.t) (s : State)
  (parts : list MulterFile) :
  Req.method req = POST ->
  path_matches (lit "/upload") (Req.path req) = true ->
  Req.payload req = Multipart parts ->
  Exists (fun p => (10 * MiB < size p)%N) parts ->
  (exists res : Res.t,
      app env req s = (Normal (Responded res), s)
      /\ Res.statusCode res = 500%Z
      /\ Res.content res = ErrorPage)
  /\ (forall (req0 req1 : Req.t) (res0 res1 : Res.t) (f : MulterFile),
         Req.file req0 = None ->
         single upload (lit "file") req0 res0 = Next req1 res1 ->
         Req.file req1 = Some f ->
         (size f <= 10 * MiB)%N).
Proof.
  intros M Pm Pl B. split.
  - destruct (admitted env (Req.origin req)) eqn:A.
    + destruct (intake_oversized (lit "file") parts B 1 None) as [e [I St]].
      eexists. split; [apply (app_intake_error req s parts e M Pm A Pl I St)|].
      split; reflexivity.
    + exists denial. split; [apply app_denied; exact A | split; reflexivity].
  - intros req0 req1 res0 res1 f. apply single_bound.
Qed.

(** X15. An admitted multipart POST /upload whose intake succeeds is
    answered by the upload handler, run on the request with [req.file] set
    and on the response carrying the CORS headers; when the handler's
    promise rejects, the request gets no response. *)
Lemma app_upload (req : Req.t) (s : State) (parts : list MulterFile)
  (f : option MulterFile) :
  Req.method req = POST ->
  path_matches (lit "/upload") (Req.path req) = true ->
  admitted env (Req.origin req) = true ->
  Req.payload req = Multipart parts ->
  intake upload (lit "file") 1 parts None = inr f ->
  let req' := Req.with_file f
                (Req.with_body (or_else (Req.body req) (Obj [])) req) in
  let res' := configureOrigin req Res.fresh in
  app env req s
  = match upload_handler env req' res' s with
    | (Normal r, s') => (Normal (Responded r), s')
    | (Throw e, s') => (Normal (NoResponse e), s')
    end.
Proof.
  intros M Pm A Pl I req' res'.
  rewrite (app_admitted req s A), M. cbn [Method_eqb tl layers].
  set (req1 := Req.with_body (or_else (Req.body req) (Obj [])) req).
  assert (M1 : Req.method req1 = POST) by exact M.
  rewrite dispatch_skip
    by (unfold layer_matches, method_matches; cbn [matcher]; rewrite M;
        reflexivity).
  rewrite (dispatch_step _ _ req res' s s (Next req1 res'))
    by (try reflexivity;
        cbn [stack run_stack]; unfold middleware, bind, ret, express_json;
        rewrite Pl; reflexivity).
  do 2 rewrite dispatch_skip
    by (unfold layer_matches, method_matches; cbn [matcher]; rewrite M1;
        reflexivity).
  cbn [dispatch]. unfold layer_matches, method_matches. cbn [matcher].
  rewrite M1. change (Req.path req1) with (Req.path req). rewrite Pm.
  cbn [Method_eqb orb andb stack run_stack].
  unfold middleware, bind, ret, single, async.
  change (Req.payload req1) with (Req.payload req). rewrite Pl, I.
  change (Req.with_file f req1) with req'.
  destruct (upload_handler env req' res' s) as [[r | e] s']; reflexivity.
Qed.

(** X16. An admitted DELETE /image with a JSON object as body is
    answered by the delete handler, run on the request with [req.body] set
    to that object; when the handler's promise rejects, the request gets
    no response. *)
Lemma app_delete (req : Req.t) (s : State) (fs : list (jsstring * value)) :
  Req.method req = DELETE ->
  path_matches (lit "/image") (Req.path req) = true ->
  admitted env (Req.origin req) = true ->
  Req.payload req = JsonBody (Obj fs) ->
  let req' := Req.with_body (Obj fs) req in
  let res' := configureOrigin req Res.fresh in
  app env req s
  = match delete_handler req' res' s with
    | (Normal r, s') => (Normal (Responded r), s')
    | (Throw e, s') => (Normal (NoResponse e), s')
    end.
Proof.
  intros M Pm A Pl req' res'.
  rewrite (app_admitted req s A), M. cbn [Method_eqb tl layers].
  assert (M1 : Req.method req' = DELETE) by exact M.
  rewrite dispatch_skip
    by (unfold layer_matches, method_matches; cbn [matcher]; rewrite M;
        reflexivity).
  rewrite (dispatch_step _ _ req res' s s (Next req' res'))
    by (try reflexivity;
        cbn [stack run_stack]; unfold middleware, bind, ret, express_json;
        rewrite Pl; reflexivity).
  do 3 rewrite dispatch_skip
    by (unfold layer_matches, method_matches; cbn [matcher]; rewrite M1;
        reflexivity).
  cbn [dispatch]. unfold layer_matches, method_matches. cbn [matcher].
  rewrite M1. change (Req.path req') with (Req.path req). rewrite Pm.
  cbn [Method_eqb orb andb stack run_stack].
  unfold bind, ret, async.
  destruct (delete_handler req' res' s) as [[r | e] s']; reflexivity.
Qed.

End Pipeline.

(** * Concrete runs *)


(** The scenario of the specification: a 10-byte JPEG named [a b?.jpg]. *)
Example upload_scenario :
  run_upload (Script.with_file (Some Script.jpeg)) Res.fresh (Script.w0, [])
  = (Normal {| Res.statusCode := 200;
               Res.headers := [];
               Res.content :=
                 Json (Obj [(lit "url",
                             Str (lit "https://ik.imagekit.io/demo/product-images/a.jpg"));
                            (lit "fileId", Str (lit "65f0c1"))]) |},
     (Script.w0,
      [EvDateNow; EvUuid;
       EvUpload
         {| file := repeat Byte.xff 10;
            fileName :=
              lit "1700000000000-3b241101-e2bb-4255-8caf-4136c566a962-a_b_.jpg";
            folder := lit "/product-images";
            useUniqueFileName := false;
            isPrivateFile := false;
            tags := [lit "lifcura"; lit "product"] |}])).
Proof. reflexivity. Qed.

Example allow_list_parsed :
  allowedOrigins Script.env
  = [lit "https://shop.example"; lit "http://localhost:3000"].
Proof. reflexivity. Qed.

Example evil_origin_denied :
  run_app (Req.incoming POST (lit "/upload") (Some (lit "https://evil.example"))
             (Multipart [Script.jpeg]))
          (Script.w0, [])
  = (Normal (Responded denial), (Script.w0, [])).
Proof. reflexivity. Qed.

(** The other scenarios of the specification, through the whole
    application: no file part, a text file, and a delete without fileId. *)
Example no_file_scenario :
  run_app (Req.incoming POST (lit "/upload") None (Multipart []))
          (Script.w0, [])
  = (Normal (Responded
               {| Res.statusCode := 400;
                  Res.headers := [(lit "Vary", lit "Origin")];
                  Res.content :=
                    Json (Obj [(lit "error", Str (lit "No file provided"))]) |}),
     (Script.w0, [])).
Proof. reflexivity. Qed.

Example text_file_scenario :
  run_app (Req.incoming POST (lit "/upload") None (Multipart [Script.text]))
          (Script.w0, [])
  = (Normal (Responded
               {| Res.statusCode := 400;
                  Res.headers := [(lit "Vary", lit "Origin")];
                  Res.content :=
                    Json (Obj [(lit "error",
                                Str (lit "Only image uploads are allowed"))]) |}),
     (Script.w0, [])).
Proof. reflexivity. Qed.

Example delete_empty_body_scenario :
  run_app (Req.incoming DELETE (lit "/image") None (JsonBody (Obj [])))
          (Script.w0, [])
  = (Normal (Responded
               {| Res.statusCode := 400;
                  Res.headers := [(lit "Vary", lit "Origin")];
                  Res.content :=
                    Json (Obj [(lit "error", Str (lit "fileId is required"))]) |}),
     (Script.w0, [])).
Proof. reflexivity. Qed.

(** The limit in bytes. *)
Example limit_value :
  limits_fileSize upload = (10 * MiB)%N
  /\ (10 * MiB)%N = 10485760%N.
Proof. split; reflexivity. Qed.

(** When the gateway rejects with [undefined] the [catch] block raises in
    turn and the request gets no response. *)
Example rejection_with_undefined :
  fst (run_app (Req.incoming DELETE (lit "/image") None
                  (JsonBody (Obj [(lit "fileId", Str (lit "65f0c1"))])))
               (Script.rejecting Undefined, []))
  = Normal (NoResponse TypeError).
Proof. reflexivity. Qed.

(** Witness of C7. *)
Lemma upload_without_file_witness :
  run_upload (Script.with_file None) Res.fresh (Script.w0, [])
  = (Normal {| Res.statusCode := 400;
               Res.headers := [];
               Res.content :=
                 Json (Obj [(lit "error", Str (lit "No file provided"))]) |},
     (Script.w0, [])).
Proof.
  apply (@upload_without_file Script.platform Script.env
           (Script.with_file None) Res.fresh (Script.w0, [])).
  reflexivity.
Defined.

(** Witness of C1: a text file. *)
Lemma upload_rejects_non_image_witness :
  run_upload (Script.with_file (Some Script.text)) Res.fresh (Script.w0, [])
  = (Normal {| Res.statusCode := 400;
               Res.headers := [];
               Res.content :=
                 Json (Obj [(lit "error",
                             Str (lit "Only image uploads are allowed"))]) |},
     (Script.w0, []))
  /\ gateway_calls
       (snd (snd (run_upload (Script.with_file (Some Script.text)) Res.fresh
                             (Script.w0, []))))
     = gateway_calls [].
Proof.
  apply (@upload_rejects_non_image Script.platform Script.env
           (Script.with_file (Some Script.text)) Res.fresh Script.text
           (Script.w0, [])).
  - reflexivity.
  - reflexivity.
Defined.

(** Witness of C3: the gateway throws [Error("quota exceeded")]. *)
Lemma upload_gateway_outcome_witness :
  fst (run_upload (Script.with_file (Some Script.jpeg)) Res.fresh
                  (Script.rejecting (Script.failure (lit "quota exceeded")), []))
  = Normal {| Res.statusCode := 500;
              Res.headers := [];
              Res.content :=
                Json (Obj [(lit "error", Str (lit "quota exceeded"))]) |}.
Proof.
  pose proof
    (@upload_gateway_outcome Script.platform Script.env
       (Script.with_file (Some Script.jpeg)) Res.fresh Script.jpeg
       (Script.rejecting (Script.failure (lit "quota exceeded")))
       (Script.rejecting (Script.failure (lit "quota exceeded")))
       (Script.rejecting (Script.failure (lit "quota exceeded")))
       (Script.rejecting (Script.failure (lit "quota exceeded")))
       [] 1700000000000%Z (lit "3b241101-e2bb-4255-8caf-4136c566a962")
       (Rejected (Script.failure (lit "quota exceeded")))
       eq_refl eq_refl eq_refl eq_refl eq_refl) as H.
  cbv beta iota zeta in H. exact (f_equal fst (H eq_refl)).
Defined.


(** Witness of C10: the bodies [{fileId: null}], [{fileId: ""}],
    [{fileId: 0}] and [{fileId: false}]. *)
Lemma delete_falsy_fileId_witness :
  Forall
    (fun fileId : value =>
       run_delete (Script.delete_with (Obj [(lit "fileId", fileId)]))
                  Res.fresh (Script.w0, [])
       = (Normal {| Res.statusCode := 400;
                    Res.headers := [];
                    Res.content :=
                      Json (Obj [(lit "error",
                                  Str (lit "fileId is required"))]) |},
          (Script.w0, []))
       /\ gateway_calls
            (snd (snd (run_delete
                         (Script.delete_with (Obj [(lit "fileId", fileId)]))
                         Res.fresh (Script.w0, []))))
          = gateway_calls [])
    [Null; Str (lit ""); Num (Zero false); Bool false].
Proof.
  apply Forall_cons.
  { apply (@delete_falsy_fileId Script.platform
             (Script.delete_with (Obj [(lit "fileId", Null)]))
             Res.fresh (Script.w0, [])).
    vm_compute. constructor. }
  apply Forall_cons.
  { apply (@delete_falsy_fileId Script.platform
             (Script.delete_with (Obj [(lit "fileId", Str (lit ""))]))
             Res.fresh (Script.w0, [])).
    vm_compute. constructor. }
  apply Forall_cons.
  { apply (@delete_falsy_fileId Script.platform
             (Script.delete_with (Obj [(lit "fileId", Num (Zero false))]))
             Res.fresh (Script.w0, [])).
    vm_compute. constructor. }
  apply Forall_cons.
  { apply (@delete_falsy_fileId Script.platform
             (Script.delete_with (Obj [(lit "fileId", Bool false)]))
             Res.fresh (Script.w0, [])).
    vm_compute. constructor. }
  apply Forall_nil.
Defined.

(** Witness of C4: the gateway throws [Error("not found")]. *)
Lemma delete_outcome_witness :
  run_delete (Script.delete_with (Obj [(lit "fileId", Str (lit "65f0c1"))]))
             Res.fresh
             (Script.rejecting (Script.failure (lit "not found")), [])
  = (Normal {| Res.statusCode := 500;
               Res.headers := [];
               Res.content :=
                 Json (Obj [(lit "error", Str (lit "not found"))]) |},
     (Script.rejecting (Script.failure (lit "not found")),
      [EvDelete (Str (lit "65f0c1"));
       EvConsoleError (lit "Delete handler error:")
                      (Script.failure (lit "not found"))])).
Proof.
  pose proof
    (@delete_outcome Script.platform
       (Script.delete_with (Obj [(lit "fileId", Str (lit "65f0c1"))]))
       Res.fresh
       (Script.rejecting (Script.failure (lit "not found")))
       (Script.rejecting (Script.failure (lit "not found")))
       [] (Rejected (Script.failure (lit "not found")))
       eq_refl) as H.
  cbv beta iota zeta in H. destruct H as [_ H].
  exact (H eq_refl eq_refl).
Defined.

(** C4 as stated fails: the gateway throws an error whose message is the
    empty string, as [new Error()] has it, and the response carries
    ["Server error"], not that message. *)
Lemma delete_empty_message_replaced :
  let e := Script.failure [] in
  let req := Script.delete_with (Obj [(lit "fileId", Str (lit "65f0c1"))]) in
  get e (lit "message") = Some (Str [])
  /\ exists res : Res.t,
       fst (run_delete req Res.fresh (Script.rejecting e, [])) = Normal res
       /\ Res.statusCode res = 500%Z
       /\ Res.content res
          = Json (Obj [(lit "error", Str (lit "Server error"))])
       /\ Res.content res <> Json (Obj [(lit "error", Str [])]).
Proof.
  cbv zeta. split; [reflexivity|].
  eexists. split; [reflexivity|].
  split; [reflexivity|]. split; [reflexivity|]. discriminate.
Qed.

(** C5 as stated fails: an Origin header that is present with an empty
    value equals no entry of the allow-list and is let through. *)
Lemma empty_origin_admitted :
  let o := Some (lit "") in
  o <> None
  /\ ~ In (lit "") (allowedOrigins Script.env)
  /\ admitted Script.env o = true
  /\ fst (run_app (Req.incoming GET (lit "/health") o NoPayload)
                  (Script.w0, []))
     = Normal (Responded
                 {| Res.statusCode := 200;
                    Res.headers := [(lit "Vary", lit "Origin")];
                    Res.content := Json (Obj [(lit "ok", Bool true)]) |}).
Proof.
  cbv zeta. split; [discriminate|]. split.
  - apply allowedOrigins_nonempty.
  - split; reflexivity.
Qed.

(** Witness of C9: a pre-flight from an allowed origin. *)
Lemma preflight_answer_witness :
  exists res : Res.t,
    run_app (Req.incoming OPTIONS (lit "/upload")
               (Some (lit "https://shop.example")) NoPayload)
            (Script.w0, [])
    = (Normal (Responded res), (Script.w0, []))
    /\ Res.statusCode res = 204%Z
    /\ Res.content res = EmptyBody
    /\ advertised_methods res
       = Some [lit "GET"; lit "POST"; lit "DELETE"; lit "OPTIONS"]
    /\ advertised_headers res
       = Some [lit "Content-Type"; lit "Authorization"]
    /\ Res.header (lit "Access-Control-Allow-Credentials") res = None.
Proof.
  apply (@preflight_answer Script.platform Script.env
           (Req.incoming OPTIONS (lit "/upload")
              (Some (lit "https://shop.example")) NoPayload)
           (Script.w0, []) eq_refl).
  reflexivity.
Defined.

(** C9 as stated fails: the pre-flight answer advertises OPTIONS, which is
    not one of GET, POST and DELETE. *)
Lemma preflight_advertises_options :
  exists res : Res.t,
    fst (run_app (Req.incoming OPTIONS (lit "/upload")
                    (Some (lit "https://shop.example")) NoPayload)
                 (Script.w0, []))
    = Normal (Responded res)
    /\ advertised_methods res
       = Some [lit "GET"; lit "POST"; lit "DELETE"; lit "OPTIONS"]
    /\ ~ In (lit "OPTIONS") [lit "GET"; lit "POST"; lit "DELETE"].
Proof.
  eexists. split; [reflexivity|]. split; [reflexivity|].
  intros [H | [H | [H | []]]]; discriminate.
Qed.

Lemma oversized_size : size Script.oversized = (10 * MiB + 1)%N.
Proof.
  unfold size, Script.oversized. cbn [buffer].
  rewrite repeat_length, N2Nat.id. reflexivity.
Qed.

(** Witness of C6: a file of 10 MiB and one byte. *)
Lemma oversized_upload_fails_witness :
  (exists res : Res.t,
      run_app (Req.incoming POST (lit "/upload") None
                 (Multipart [Script.oversized]))
              (Script.w0, [])
      = (Normal (Responded res), (Script.w0, []))
      /\ Res.statusCode res = 500%Z
      /\ Res.content res = ErrorPage)
  /\ (forall (req0 req1 : Req.t) (res0 res1 : Res.t) (f : MulterFile),
         Req.file req0 = None ->
         single upload (lit "file") req0 res0 = Next req1 res1 ->
         Req.file req1 = Some f ->
         (size f <= 10 * MiB)%N).
Proof.
  apply (@oversized_upload_fails Script.platform Script.env
           (Req.incoming POST (lit "/upload") None
              (Multipart [Script.oversized]))
           (Script.w0, []) [Script.oversized]).
  - reflexivity.
  - reflexivity.
  - reflexivity.
  - constructor. rewrite oversized_size. lia.
Defined.

(** C6 as stated fails: the oversized upload is answered with status 500,
    which is not a client error. *)
Lemma oversized_upload_is_server_error :
  (10 * MiB < size Script.oversized)%N
  /\ exists res : Res.t,
       run_app (Req.incoming POST (lit "/upload") None
                  (Multipart [Script.oversized]))
               (Script.w0, [])
       = (Normal (Responded res), (Script.w0, []))
       /\ Res.statusCode res = 500%Z
       /\ ~ (400 <= Res.statusCode res < 500)%Z.
Proof.
  split; [rewrite oversized_size; lia|].
  assert (I : intake upload (lit "file") 1 [Script.oversized] None
              = inl (MulterError (lit "LIMIT_FILE_SIZE") (lit "File too large"))).
  { cbn [intake].
    change (negb (str_eqb (fieldname Script.oversized) (lit "file")))
      with false.
    cbn iota. rewrite oversized_size. reflexivity. }
  eexists. split.
  - apply (@app_intake_error Script.platform Script.env
             (Req.incoming POST (lit "/upload") None
                (Multipart [Script.oversized]))
             (Script.w0, []) [Script.oversized] _
             eq_refl eq_refl eq_refl eq_refl I eq_refl).
  - cbn [Res.statusCode]. split; [reflexivity | lia].
Qed.

(** * Further properties of the code *)

(** ** The allow-list (lines 10 and 29-32) *)

Section AllowList.
Variable env : Env.

Lemma split_no_separator (sep : code_unit) (s : jsstring) :
  forall w, In w (split sep s) -> ~ In sep w.
Proof.
  induction s as [|c s IH]; intros w H.
  - destruct H as [<- | []]. intros [].
  - cbn [split] in H. destruct (N.eqb c sep) eqn:E.
    + destruct H as [<- | H]; [intros [] | apply IH; exact H].
    + destruct (split sep s) as [|w0 ws] eqn:S.
      * destruct H as [<- | []]. intros [K | []].
        subst. rewrite N.eqb_refl in E. discriminate.
      * destruct H as [<- | H].
        -- intros [K | K].
           ++ subst. rewrite N.eqb_refl in E. discriminate.
           ++ apply (IH w0); [left; reflexivity | exact K].
        -- apply IH. right. exact H.
Qed.

Lemma trimStart_suffix (s : jsstring) :
  exists pre, s = pre ++ trimStart s.
Proof.
  induction s as [|c s [pre IH]]; [exists []; reflexivity|].
  cbn [trimStart]. destruct (is_space c).
  - exists (c :: pre). cbn. rewrite <- IH. reflexivity.
  - exists []. reflexivity.
Qed.

Lemma trimStart_head (s t : jsstring) (c : code_unit) :
  trimStart s = c :: t -> is_space c = false.
Proof.
  induction s as [|x s IH]; cbn [trimStart]; [discriminate|].
  destruct (is_space x) eqn:E; [exact IH|].
  intros H. injection H as -> _. exact E.
Qed.

Lemma trim_subset (s : jsstring) (c : code_unit) :
  In c (trim s) -> In c s.
Proof.
  unfold trim. intros H. apply in_rev in H.
  destruct (trimStart_suffix (rev (trimStart s))) as [p1 E1].
  assert (K : In c (rev (trimStart s))).
  { rewrite E1. apply in_or_app. right. exact H. }
  apply in_rev in K.
  destruct (trimStart_suffix s) as [p2 E2].
  rewrite E2. apply in_or_app. right. exact K.
Qed.

Lemma trim_trimmed (s : jsstring) : trimmed (trim s) = true.
Proof.
  unfold trim.
  set (t := trimStart s).
  destruct (trimStart (rev t)) as [|x u] eqn:U; [reflexivity|].
  pose proof (trimStart_head _ _ _ U) as Hx.
  destruct (trimStart_suffix (rev t)) as [pre E]. rewrite U in E.
  assert (Et : t = rev (x :: u) ++ rev pre).
  { rewrite <- (rev_involutive t), E, rev_app_distr. reflexivity. }
  destruct (rev (x :: u)) as [|c r] eqn:R.
  { apply (f_equal (@List.length _)) in R. rewrite length_rev in R.
    discriminate. }
  unfold trimmed.
  assert (Hc : is_space c = false).
  { apply (trimStart_head s (r ++ rev pre) c). fold t. rewrite Et. reflexivity. }
  rewrite Hc. cbn [negb andb].
  rewrite <- R. cbn [rev]. rewrite last_last, Hx. reflexivity.
Qed.

(** X1. Every entry of the allow-list is non-empty, neither begins nor
    ends with white space, and contains no comma. *)
Theorem allowedOrigins_entries (o : jsstring) :
  In o (allowedOrigins env) ->
  o <> [] /\ trimmed o = true /\ ~ In (unit_of ",") o.
Proof.
  unfold allowedOrigins. intros H. apply filter_In in H.
  destruct H as [H T]. apply in_map_iff in H. destruct H as [w [<- W]].
  split; [|split].
  - intros E. rewrite E in T. discriminate.
  - apply trim_trimmed.
  - intros K. apply trim_subset in K.
    apply (split_no_separator _ _ w W). exact K.
Qed.

(** X2. With ALLOW_ORIGIN unset or empty the allow-list is the single
    origin [http://localhost:3000]. *)
Theorem allowedOrigins_default :
  env_ALLOW_ORIGIN env = None \/ env_ALLOW_ORIGIN env = Some [] ->
  allowedOrigins env = [lit "http://localhost:3000"].
Proof.
  intros H. unfold allowedOrigins, ALLOW_ORIGIN.
  destruct H as [-> | ->]; reflexivity.
Qed.

(** X3. Whatever the configuration, a non-empty Origin that contains a
    comma, or begins or ends with white space, is turned away. *)
Theorem malformed_origin_denied (o : jsstring) :
  o <> [] ->
  In (unit_of ",") o \/ trimmed o = false ->
  admitted env (Some o) = false.
Proof.
  intros N B. destruct (admitted env (Some o)) eqn:A; [|reflexivity].
  exfalso. unfold admitted in A. cbn [corsOptions cors_origin] in A.
  destruct o as [|c o]; [congruence|]. cbn [no_origin] in A.
  destruct (includes (allowedOrigins env) (c :: o)) eqn:I; [|discriminate].
  unfold includes in I. apply existsb_exists in I. destruct I as [x [X E]].
  apply str_eqb_eq in E. rewrite <- E in X. apply allowedOrigins_entries in X.
  destruct X as [_ [T C]]. destruct B as [B | B]; [exact (C B) | congruence].
Qed.

End AllowList.

(** ** The name generator (lines 79-80) *)

Section KeyProperties.

Lemma safeName_fixed (s : jsstring) :
  Forall name_char s -> safeName s = s.
Proof.
  intros H. rewrite safeName_map.
  induction H as [|c s Hc _ IH]; [reflexivity|].
  cbn [map]. rewrite IH.
  apply class_is_name_char in Hc. rewrite Hc. reflexivity.
Qed.

(** X4. Sanitizing is idempotent, and it leaves a name unchanged exactly
    when every unit of the name is in [[A-Za-z0-9._-]]. *)
Theorem safeName_idempotent (s : jsstring) :
  safeName (safeName s) = safeName s
  /\ (safeName s = s <-> Forall name_char s).
Proof.
  split; [apply safeName_fixed, safeName_chars|].
  split; [|apply safeName_fixed].
  intros E. rewrite <- E. apply safeName_chars.
Qed.

Lemma app_cut_at_first (x : code_unit) (d d' r r' : jsstring) :
  ~ In x d -> ~ In x d' ->
  d ++ x :: r = d' ++ x :: r' -> d = d' /\ r = r'.
Proof.
  revert d'. induction d as [|a d IH]; intros [|a' d'] Hd Hd' E; cbn in E.
  - injection E as ->. split; reflexivity.
  - injection E as -> _. exfalso. apply Hd'. left. reflexivity.
  - injection E as -> _. exfalso. apply Hd. left. reflexivity.
  - injection E as -> E.
    destruct (IH d') as [-> ->]; try exact E.
    + intros K. apply Hd. right. exact K.
    + intros K. apply Hd'. right. exact K.
    + split; reflexivity.
Qed.

Lemma app_cut_at_length (u u' r r' : jsstring) :
  List.length u = List.length u' ->
  u ++ r = u' ++ r' -> u = u' /\ r = r'.
Proof.
  revert u'. induction u as [|a u IH]; intros [|a' u'] L E; cbn in L, E;
    try discriminate.
  - split; [reflexivity | exact E].
  - injection E as -> E. injection L as L.
    destruct (IH u' L E) as [-> ->]. split; reflexivity.
Qed.

Lemma digits_no_hyphen (z : Z) :
  (0 <= z)%Z -> ~ In 45%N (integer_to_string z).
Proof.
  intros H K. destruct (integer_to_string_value z H) as [D _].
  rewrite Forall_forall in D. specialize (D _ K). unfold is_digit in D. lia.
Qed.

(** X5. Keys made from clock readings at or after the epoch and UUIDs of
    one length (36 units for every version-4 UUID) can be told apart:
    two keys are equal only when the clock readings, the UUIDs and the
    sanitized names are. *)
Theorem storage_key_injective (now now' : Z) (uuid uuid' n n' : jsstring) :
  (0 <= now)%Z -> (0 <= now')%Z ->
  List.length uuid = List.length uuid' ->
  storage_key now uuid n = storage_key now' uuid' n' ->
  now = now' /\ uuid = uuid' /\ safeName n = safeName n'.
Proof.
  intros H H' L E. unfold storage_key in E.
  change (lit "-") with [45%N] in E. cbn [app] in E.
  destruct (app_cut_at_first 45%N _ _ _ _
              (digits_no_hyphen now H) (digits_no_hyphen now' H') E)
    as [Ed Er].
  destruct (app_cut_at_length uuid uuid' _ _ L Er) as [Eu Es].
  split; [|split; [exact Eu | injection Es as Es; exact Es]].
  destruct (integer_to_string_value now H) as [_ V].
  destruct (integer_to_string_value now' H') as [_ V'].
  rewrite <- V, <- V', Ed. reflexivity.
Qed.

End KeyProperties.

(** Witness of X5. *)
Lemma storage_key_injective_witness :
  1700000000000%Z = 1700000000000%Z
  /\ lit "3b241101-e2bb-4255-8caf-4136c566a962"
     = lit "3b241101-e2bb-4255-8caf-4136c566a962"
  /\ safeName (lit "a b?.jpg") = safeName (lit "a_b_.jpg").
Proof.
  apply (storage_key_injective 1700000000000 1700000000000
           (lit "3b241101-e2bb-4255-8caf-4136c566a962")
           (lit "3b241101-e2bb-4255-8caf-4136c566a962")
           (lit "a b?.jpg") (lit "a_b_.jpg")).
  - lia.
  - lia.
  - reflexivity.
  - reflexivity.
Defined.

(** ** What the handlers do and never do (lines 71-114) *)

Section HandlerDiscipline.
Context {P : Platform}.
Variable env : Env.

(** The three ways the upload handler can run. *)
Lemma upload_handler_cases (req : Req.t) (res : Res.t) (w : World)
  (tr : list Effect) :
  (exists v : value,
      upload_handler env req res (w, tr)
      = (Normal {| Res.statusCode := 400; Res.headers := Res.headers res;
                   Res.content := Json v |}, (w, tr)))
  \/ exists (f : MulterFile) (now : Z) (uuid : jsstring) (w' : World)
            (r : Settled),
       Req.file req = Some f
       /\ startsWith (mimetype f) (lit "image/") = true
       /\ let o := upload_options env (buffer f)
                                  (storage_key now uuid (originalname f)) in
          let tr' := tr ++ [EvDateNow; EvUuid; EvUpload o] in
          upload_handler env req res (w, tr)
          = match r with
            | Rejected e =>
                on_error (lit "Upload handler error:") res e (w', tr')
            | Fulfilled result =>
                if to_boolean (get_opt result (lit "url")) then
                  (Normal (Res.json
                             (Obj [(lit "url", get_opt result (lit "url"));
                                   (lit "fileId", get_opt result (lit "fileId"))])
                             res),
                   (w', tr'))
                else
                  (Normal (Res.json
                             (error_body (Str (lit "ImageKit upload failed")))
                             (Res.status 500 res)),
                   (w', tr'))
            end.
Proof.
  destruct (Req.file req) as [f|] eqn:Hf.
  - destruct (startsWith (mimetype f) (lit "image/")) eqn:Hm.
    + right.
      destruct (Date_now w) as [now w1] eqn:Hn.
      destruct (uuidv4 w1) as [uuid w2] eqn:Hu.
      destruct (imagekit_upload
                  (upload_options env (buffer f)
                     (storage_key now uuid (originalname f))) w2)
        as [r w3] eqn:Hg.
      exists f, now, uuid, w3, r. split; [reflexivity|]. split; [exact Hm|].
      apply (upload_validated env req res f w w1 w2 w3 tr now uuid r
               Hf Hm Hn Hu Hg).
    + left. eexists.
      unfold upload_handler, try_catch. rewrite Hf, Hm. reflexivity.
  - left. eexists.
    unfold upload_handler, try_catch. rewrite Hf. reflexivity.
Qed.

(** X6. Whatever the request and the gateway's answer, the upload handler
    never calls the gateway's delete and calls its upload at most once;
    what it uploads is the buffer of the request's file, whose type starts
    with [image/], into the configured folder, public and under the name
    given. *)
Theorem upload_handler_effects (req : Req.t) (res : Res.t) (w : World)
  (tr : list Effect) :
  exists delta : list Effect,
    snd (snd (upload_handler env req res (w, tr))) = tr ++ delta
    /\ (forall id, ~ In (EvDelete id) delta)
    /\ (List.length (gateway_calls delta) <= 1)%nat
    /\ (forall o, In (EvUpload o) delta ->
          exists f, Req.file req = Some f
                    /\ startsWith (mimetype f) (lit "image/") = true
                    /\ file o = buffer f
                    /\ folder o = IMAGEKIT_FOLDER env
                    /\ isPrivateFile o = false
                    /\ useUniqueFileName o = false).
Proof.
  destruct (upload_handler_cases req res w tr)
    as [[v E] | [f [now [uuid [w' [r [Hf [Hm E]]]]]]]].
  - exists []. rewrite E, app_nil_r. cbn.
    repeat split; auto. intros o [].
  - cbv zeta in E.
    set (o := upload_options env (buffer f)
                             (storage_key now uuid (originalname f))) in *.
    assert (Sh : forall extra,
               (forall id, ~ In (EvDelete id)
                                ([EvDateNow; EvUuid; EvUpload o] ++ extra))
               /\ (forall o', In (EvUpload o')
                                 ([EvDateNow; EvUuid; EvUpload o] ++ extra) ->
                              o' = o)
               /\ gateway_calls ([EvDateNow; EvUuid; EvUpload o] ++ extra)
                  = [EvUpload o]
               -> exists delta : list Effect,
                 tr ++ [EvDateNow; EvUuid; EvUpload o] ++ extra = tr ++ delta
                 /\ (forall id, ~ In (EvDelete id) delta)
                 /\ (List.length (gateway_calls delta) <= 1)%nat
                 /\ (forall o', In (EvUpload o') delta ->
                       exists f', Req.file req = Some f'
                         /\ startsWith (mimetype f') (lit "image/") = true
                         /\ file o' = buffer f'
                         /\ folder o' = IMAGEKIT_FOLDER env
                         /\ isPrivateFile o' = false
                         /\ useUniqueFileName o' = false)).
    { intros extra [D [U G]]. eexists. split; [reflexivity|].
      split; [exact D|]. split; [rewrite G; cbn; lia|].
      intros o' I. rewrite (U o' I). exists f. repeat split; assumption. }
    destruct r as [result | e].
    + destruct (Sh []) as [delta [Ed K]].
      { repeat split.
        - intros id [H | [H | [H | []]]]; discriminate.
        - intros o' [H | [H | [H | []]]]; try discriminate.
          injection H as <-. reflexivity. }
      exists delta. split; [|exact K].
      rewrite <- Ed, app_nil_r. rewrite E.
      destruct (to_boolean (get_opt result (lit "url"))); reflexivity.
    + destruct (Sh [EvConsoleError (lit "Upload handler error:") e])
        as [delta [Ed K]].
      { repeat split.
        - intros id [H | [H | [H | [H | []]]]]; discriminate.
        - intros o' [H | [H | [H | [H | []]]]]; try discriminate.
          injection H as <-. reflexivity. }
      exists delta. split; [|exact K].
      rewrite <- Ed. rewrite E, on_error_trace.
      cbn [snd]. rewrite <- app_assoc. reflexivity.
Qed.


(** The ways the delete handler can run. *)
Lemma delete_handler_cases (req : Req.t) (res : Res.t) (w : World)
  (tr : list Effect) :
  let fileId := fileId_of (Req.body req) in
  (to_boolean fileId = false
   /\ exists v : value,
        delete_handler req res (w, tr)
        = (Normal {| Res.statusCode := 400; Res.headers := Res.headers res;
                     Res.content := Json v |}, (w, tr)))
  \/ (to_boolean fileId = true
      /\ exists (w' : World) (r : Settled),
           delete_handler req res (w, tr)
           = match r with
             | Fulfilled _ =>
                 (Normal (Res.json (Obj [(lit "ok", Bool true)]) res),
                  (w', tr ++ [EvDelete fileId]))
             | Rejected e =>
                 on_error (lit "Delete handler error:") res e
                          (w', tr ++ [EvDelete fileId])
             end).
Proof.
  intros fileId. destruct (to_boolean fileId) eqn:T.
  - right. split; [reflexivity|].
    destruct (imagekit_deleteFile fileId w) as [r w'] eqn:Hd.
    exists w', r. apply (delete_with_fileId req res w w' tr r T Hd).
  - left. split; [reflexivity|]. eexists.
    apply (delete_without_fileId req res (w, tr) T).
Qed.

(** X8. Whatever the request and the gateway's answer, the delete handler
    never uploads and calls the gateway's delete at most once, and then
    with the body's [fileId], which is truthy. *)
Theorem delete_handler_effects (req : Req.t) (res : Res.t) (w : World)
  (tr : list Effect) :
  exists delta : list Effect,
    snd (snd (delete_handler req res (w, tr))) = tr ++ delta
    /\ (forall o, ~ In (EvUpload o) delta)
    /\ (List.length (gateway_calls delta) <= 1)%nat
    /\ (forall id, In (EvDelete id) delta ->
          id = fileId_of (Req.body req) /\ to_boolean id = true).
Proof.
  destruct (delete_handler_cases req res w tr)
    as [[T [v E]] | [T [w' [r E]]]].
  - exists []. rewrite E, app_nil_r. cbn.
    repeat split; auto; try lia; intros ? [].
  - destruct r as [v | e].
    + exists [EvDelete (fileId_of (Req.body req))]. rewrite E.
      split; [reflexivity|]. split; [|split].
      * intros o [H | []]. discriminate.
      * cbn. lia.
      * intros id [H | []]. injection H as <-. split; [reflexivity | exact T].
    + exists [EvDelete (fileId_of (Req.body req));
              EvConsoleError (lit "Delete handler error:") e].
      rewrite E, on_error_trace. cbn [snd]. rewrite <- app_assoc.
      split; [reflexivity|]. split; [|split].
      * intros o [H | [H | []]]; discriminate.
      * cbn. lia.
      * intros id [H | [H | []]]; try discriminate.
        injection H as <-. split; [reflexivity | exact T].
Qed.


End HandlerDiscipline.

(** ** Routing (lines 46-48, 56-71 and 104) *)

Section Routing.
Context {P : Platform}.
Variable env : Env.







(** X12. A request whose body [express.json()] refuses - a JSON text
    that is no object or array, or one the parser rejects - is answered by
    the default error handler, whatever its route: with status 400 in the
    first case, and no handler has any effect on the outside. *)
Theorem refused_body_fails (req : Req.t) (s : State) :
  admitted env (Req.origin req) = true ->
  Req.method req <> OPTIONS ->
  body_accepted (Req.payload req) = false ->
  exists res : Res.t,
    app env req s = (Normal (Responded res), s)
    /\ Res.content res = ErrorPage
    /\ (400 <= Res.statusCode res < 600)%Z
    /\ ((exists v, Req.payload req = JsonBody v) ->
        Res.statusCode res = 400%Z).
Proof.
  intros A Mo B. rewrite (app_admitted env req s A).
  assert (Me : Method_eqb (Req.method req) OPTIONS = false)
    by (destruct (Req.method req); try reflexivity; congruence).
  rewrite Me. cbn [tl layers].
  rewrite dispatch_skip
    by (unfold layer_matches, method_matches; cbn [matcher]; rewrite Me;
        reflexivity).
  assert (S200 : Res.statusCode (configureOrigin req Res.fresh) = 200%Z).
  { unfold configureOrigin. destruct (Req.origin req) as [[|c o]|]; reflexivity. }
  assert (E : exists st : Z,
             express_json req (configureOrigin req Res.fresh)
             = NextErr (bad_request st) (configureOrigin req Res.fresh)
             /\ ((exists v, Req.payload req = JsonBody v) -> st = 400%Z)).
  { unfold express_json. unfold body_accepted in B.
    destruct (Req.payload req) as [ | v | st | parts ]; try discriminate.
    - exists 400%Z. split; [|reflexivity].
      destruct v; try discriminate; reflexivity.
    - exists st. split; [reflexivity|]. intros [v H]. discriminate. }
  destruct E as [st [E V]].
  rewrite (dispatch_step _ _ req _ s s
             (NextErr (bad_request st) (configureOrigin req Res.fresh)));
    [ | reflexivity
      | cbn [stack run_stack]; unfold middleware, bind, ret; rewrite E;
        reflexivity ].
  eexists. split; [reflexivity|]. split; [reflexivity|].
  unfold default_error_handler, error_status. cbn [Res.statusCode bad_request err_status].
  split.
  - destruct ((400 <=? st)%Z && (st <? 600)%Z) eqn:C; [|lia].
    apply andb_true_iff in C. destruct C as [C1 C2].
    apply Z.leb_le in C1. apply Z.ltb_lt in C2. lia.
  - intros H. rewrite (V H). reflexivity.
Qed.

(** X13. With [upload.single('file')] and the 10 MiB limit, the intake of
    a multipart body succeeds exactly when it has no file part, or a
    single file part, under the field [file] and smaller than 10 MiB,
    which then is the file the handler sees; a part of exactly 10 MiB is
    refused. *)
Theorem single_file_intake (parts : list MulterFile)
  (f : option MulterFile) :
  intake upload (lit "file") 1 parts None = inr f
  <-> (parts = [] /\ f = None)
      \/ exists p, parts = [p]
                   /\ fieldname p = lit "file"
                   /\ (size p < 10 * MiB)%N
                   /\ f = Some p.
Proof.
  split.
  - destruct parts as [|p [|q ps]]; cbn [intake].
    + intros H. injection H as <-. left. split; reflexivity.
    + destruct (str_eqb (fieldname p) (lit "file")) eqn:F;
        cbn [negb]; [|discriminate].
      destruct (limits_fileSize upload <=? size p)%N eqn:L; [discriminate|].
      intros H. injection H as <-. right. exists p.
      apply str_eqb_eq in F. apply N.leb_gt in L.
      change (limits_fileSize upload) with (10 * MiB)%N in L.
      repeat split; assumption.
    + destruct (negb (str_eqb (fieldname p) (lit "file"))); [discriminate|].
      destruct (limits_fileSize upload <=? size p)%N; discriminate.
  - intros [[-> ->] | [p [-> [F [L ->]]]]]; [reflexivity|].
    cbn [intake].
    apply str_eqb_eq in F. rewrite F. cbn [negb].
    assert (K : (limits_fileSize upload <=? size p)%N = false).
    { apply N.leb_gt. exact L. }
    rewrite K. reflexivity.
Qed.


End Routing.

(** ** Concrete runs of the further properties *)

(** Witness of X1. *)
Lemma allowedOrigins_entries_witness :
  lit "https://shop.example" <> []
  /\ trimmed (lit "https://shop.example") = true
  /\ ~ In (unit_of ",") (lit "https://shop.example").
Proof.
  apply (allowedOrigins_entries Script.env (lit "https://shop.example")).
  vm_compute. left. reflexivity.
Defined.

(** Witness of X2: nothing is set but the credentials. *)
Lemma allowedOrigins_default_witness :
  allowedOrigins
    {| env_PORT := None; env_ALLOW_ORIGIN := None;
       env_IMAGEKIT_PUBLIC_KEY := Some (lit "public_k");
       env_IMAGEKIT_PRIVATE_KEY := Some (lit "private_k");
       env_IMAGEKIT_URL_ENDPOINT := Some (lit "https://ik.imagekit.io/demo");
       env_IMAGEKIT_FOLDER := None |}
  = [lit "http://localhost:3000"].
Proof.
  apply allowedOrigins_default. left. reflexivity.
Defined.

(** Witness of X3: the whole configured list sent as one Origin. *)
Lemma malformed_origin_denied_witness :
  admitted Script.env
           (Some (lit "https://shop.example, http://localhost:3000"))
  = false.
Proof.
  apply (malformed_origin_denied Script.env
           (lit "https://shop.example, http://localhost:3000")).
  - discriminate.
  - left. vm_compute. do 20 right. left. reflexivity.
Defined.



(** Witness of X12: DELETE /image with the JSON text of a string. *)
Lemma refused_body_fails_witness :
  exists res : Res.t,
    run_app (Req.incoming DELETE (lit "/image") None
               (JsonBody (Str (lit "65f0c1"))))
            (Script.w0, [])
    = (Normal (Responded res), (Script.w0, []))
    /\ Res.content res = ErrorPage
    /\ (400 <= Res.statusCode res < 600)%Z
    /\ ((exists v, JsonBody (Str (lit "65f0c1")) = JsonBody v) ->
        Res.statusCode res = 400%Z).
Proof.
  apply (@refused_body_fails Script.platform Script.env
           (Req.incoming DELETE (lit "/image") None
              (JsonBody (Str (lit "65f0c1"))))
           (Script.w0, [])).
  - reflexivity.
  - discriminate.
  - reflexivity.
Defined.


(** Witness of X15: the 10-byte JPEG, from an allowed origin. *)
Lemma app_upload_witness :
  run_app (Req.incoming POST (lit "/upload")
             (Some (lit "https://shop.example")) (Multipart [Script.jpeg]))
          (Script.w0, [])
  = match
      run_upload
        (Req.with_file (Some Script.jpeg)
           (Req.with_body (Obj [])
              (Req.incoming POST (lit "/upload")
                 (Some (lit "https://shop.example"))
                 (Multipart [Script.jpeg]))))
        (configureOrigin
           (Req.incoming POST (lit "/upload")
              (Some (lit "https://shop.example")) (Multipart [Script.jpeg]))
           Res.fresh)
        (Script.w0, [])
    with
    | (Normal r, s') => (Normal (Responded r), s')
    | (Throw e, s') => (Normal (NoResponse e), s')
    end.
Proof.
  apply (@app_upload Script.platform Script.env
           (Req.incoming POST (lit "/upload")
              (Some (lit "https://shop.example")) (Multipart [Script.jpeg]))
           (Script.w0, []) [Script.jpeg] (Some Script.jpeg)).
  - reflexivity.
  - reflexivity.
  - reflexivity.
  - reflexivity.
  - reflexivity.
Defined.

(** Witness of X16: a delete the gateway accepts. *)
Lemma app_delete_witness :
  run_app (Req.incoming DELETE (lit "/image") None
             (JsonBody (Obj [(lit "fileId", Str (lit "65f0c1"))])))
          (Script.w0, [])
  = match
      run_delete
        (Req.with_body (Obj [(lit "fileId", Str (lit "65f0c1"))])
           (Req.incoming DELETE (lit "/image") None
              (JsonBody (Obj [(lit "fileId", Str (lit "65f0c1"))]))))
        (configureOrigin
           (Req.incoming DELETE (lit "/image") None
              (JsonBody (Obj [(lit "fileId", Str (lit "65f0c1"))])))
           Res.fresh)
        (Script.w0, [])
    with
    | (Normal r, s') => (Normal (Responded r), s')
    | (Throw e, s') => (Normal (NoResponse e), s')
    end.
Proof.
  apply (@app_delete Script.platform Script.env
           (Req.incoming DELETE (lit "/image") None
              (JsonBody (Obj [(lit "fileId", Str (lit "65f0c1"))])))
           (Script.w0, []) [(lit "fileId", Str (lit "65f0c1"))]).
  - reflexivity.
  - reflexivity.
  - reflexivity.
  - reflexivity.
Defined.

(** A file of exactly 10 MiB reaches the limit: the request is answered by
    the default error handler and the upload handler does not run. *)
Example at_limit_refused :
  size Script.at_limit = (10 * MiB)%N
  /\ run_app (Req.incoming POST (lit "/upload") None
                (Multipart [Script.at_limit]))
             (Script.w0, [])
     = (Normal (Responded
                  {| Res.statusCode := 500;
                     Res.headers := [(lit "Vary", lit "Origin")];
                     Res.content := ErrorPage |}),
        (Script.w0, [])).
Proof.
  assert (Sz : size Script.at_limit = (10 * MiB)%N).
  { unfold size, Script.at_limit. cbn [buffer].
    rewrite repeat_length, N2Nat.id. reflexivity. }
  split; [exact Sz|].
  apply (@app_intake_error Script.platform Script.env
           (Req.incoming POST (lit "/upload") None
              (Multipart [Script.at_limit]))
           (Script.w0, []) [Script.at_limit]
           (MulterError (lit "LIMIT_FILE_SIZE") (lit "File too large"))
           eq_refl eq_refl eq_refl eq_refl); [|reflexivity].
  cbn [intake].
  change (negb (str_eqb (fieldname Script.at_limit) (lit "file"))) with false.
  cbn iota. rewrite Sz. reflexivity.
Qed.
